(** * Youtube_Monitor: the metrics registry and the polling worker

    A shallow embedding of [youtube_monitor.py].

    - The Prometheus registry held by a [YouTubeMetrics] object is a record
      of finite maps from series (a metric and the tuple of its label
      values) to values, with the set [registered_streams].
    - The methods of [YouTubeMetrics] and [YouTubeMonitor] are computations
      in a state monad with exceptions: a [try] block that raises half-way
      keeps the writes it made before, as in Python, and [except Exception]
      is [try_except].
    - What the program reads from outside is an argument: the reply to each
      HTTP request (a decoded JSON value, or a failure) and the string that
      [time.strftime] returns.  Lines printed on the console are left out.
    - Gauges hold binary64 floats, as [Gauge.set] stores [float(value)];
      the rate [likes / views * 100] is computed in binary64.  A counter is
      kept as an integer: it is only ever incremented by 0 or 1. *)

From Stdlib Require Import ZArith String Ascii SpecFloat Lia.
From stdpp Require Import gmap strings list pretty.

Open Scope Z_scope.

(** ** Python values and the builtins the program applies to them *)

Module Py.

(** Python [float]: IEEE 754 binary64. *)
Definition prec : Z := 53.
Definition emax : Z := 1024.
Definition float : Type := spec_float.

(** What [response.json()] can return. A [VDict] lists the bindings of the
    dict; a key is looked up from the head. *)
#[warnings="-register-all"]
Inductive value : Type :=
| VNone
| VBool (b : bool)
| VInt (z : Z)
| VFloat (f : float)
| VStr (s : string)
| VList (l : list value)
| VDict (d : list (string * value)).

(** [float(z)]: rounds to nearest even, [OverflowError] ([None]) when [z]
    is out of range. *)
Definition float_of_int (z : Z) : option float :=
  match binary_normalize prec emax z 0 false with
  | S754_infinity _ => None
  | f => Some f
  end.

(** [a / b] on two [int]s: the correctly rounded quotient;
    [ZeroDivisionError] when [b] is 0, [OverflowError] when the quotient is
    out of range. *)
Definition int_truediv (a b : Z) : option float :=
  match a, b with
  | _, Z0 => None
  | Z0, _ => Some (S754_zero (b <? 0))
  | _, _ =>
      match SFdiv prec emax
              (S754_finite (a <? 0) (Z.to_pos (Z.abs a)) 0)
              (S754_finite (b <? 0) (Z.to_pos (Z.abs b)) 0) with
      | S754_infinity _ => None
      | q => Some q
      end
  end.

(** [x * n] for a float [x] and a small int [n]. *)
Definition float_mul_int (x : float) (n : Z) : float :=
  SFmul prec emax x (binary_normalize prec emax n 0 false).

(** [int(f)] on a float: truncation towards zero; raises on inf and nan. *)
Definition int_of_float (f : float) : option Z :=
  match f with
  | S754_zero _ => Some 0
  | S754_finite s m e =>
      Some (cond_Zopp s (if 0 <=? e then Z.pos m * 2 ^ e
                         else Z.pos m / 2 ^ (- e)))
  | _ => None
  end.

(** A [string] stands for a Python str, one character for one character.

    [str(b)] on a bool. *)
Definition str_of_bool (b : bool) : string :=
  if b then "True"%string else "False"%string.

(** [str(z)] on an int. *)
Definition str_of_int (z : Z) : string := pretty z.

Fixpoint is_substring (k s : string) : bool :=
  String.prefix k s ||
  match s with
  | EmptyString => false
  | String _ s' => is_substring k s'
  end.

Fixpoint dict_lookup (k : string) (d : list (string * value)) : option value :=
  match d with
  | [] => None
  | (k', v) :: d' => if String.eqb k' k then Some v else dict_lookup k d'
  end.

Definition is_str (k : string) (v : value) : bool :=
  match v with
  | VStr s => String.eqb s k
  | _ => false
  end.

(** [k in x] for a string [k]; [TypeError] on values that are not
    containers. *)
Definition contains (k : string) (x : value) : option bool :=
  match x with
  | VDict d => Some (match dict_lookup k d with Some _ => true | None => false end)
  | VList l => Some (existsb (is_str k) l)
  | VStr s => Some (is_substring k s)
  | _ => None
  end.

(** Truth value of [x] in a condition. *)
Definition truthy (x : value) : bool :=
  match x with
  | VNone => false
  | VBool b => b
  | VInt z => negb (z =? 0)
  | VFloat (S754_zero _) => false
  | VFloat _ => true
  | VStr s => negb (String.eqb s "")
  | VList l => match l with [] => false | _ => true end
  | VDict d => match d with [] => false | _ => true end
  end.

(** [x[k]] for a string [k]: [KeyError] on a dict without [k], [TypeError]
    on everything else. *)
Definition getitem (x : value) (k : string) : option value :=
  match x with
  | VDict d => dict_lookup k d
  | _ => None
  end.

(** [x[0]]: a dict parsed from JSON has string keys only, so [x[0]] is a
    [KeyError] there. *)
Definition getitem0 (x : value) : option value :=
  match x with
  | VList (v :: _) => Some v
  | VStr (String c _) => Some (VStr (String c EmptyString))
  | _ => None
  end.

(** [x.get(k, default)]: only a dict has the method. *)
Definition get (x : value) (k : string) (default : value) : option value :=
  match x with
  | VDict d => Some (match dict_lookup k d with Some v => v | None => default end)
  | _ => None
  end.

(** [x[:n] + suffix] for a str [suffix]: only a str can be sliced and then
    concatenated with a str. *)
Definition slice_concat (x : value) (n : nat) (suffix : string) : option string :=
  match x with
  | VStr s => Some (String.substring 0 n s ++ suffix)%string
  | _ => None
  end.

Section Int.
(** [int(s)] on a str: Python's parser of integer literals, with its
    handling of white space, sign, underscores and its limit on the
    number of digits. *)
Variable int_of_str : string -> option Z.

(** [int(x)] *)
Definition int (x : value) : option Z :=
  match x with
  | VInt z => Some z
  | VBool b => Some (if b then 1 else 0)
  | VFloat f => int_of_float f
  | VStr s => int_of_str s
  | _ => None
  end.
End Int.

(** A parser of plain decimal literals, used to run the model on concrete
    replies. *)
Definition digit_of (c : Ascii.ascii) : option Z :=
  let n := Z.of_nat (Ascii.nat_of_ascii c) in
  if (48 <=? n) && (n <=? 57) then Some (n - 48) else None.

Fixpoint digits_from (acc : Z) (s : string) : option Z :=
  match s with
  | EmptyString => Some acc
  | String c s' =>
      match digit_of c with
      | Some d => digits_from (acc * 10 + d) s'
      | None => None
      end
  end.

Definition decimal (s : string) : option Z :=
  match s with
  | EmptyString => None
  | String "-"%char ((String _ _) as s') => Z.opp <$> digits_from 0 s'
  | String "-"%char EmptyString => None
  | _ => digits_from 0 s
  end.

End Py.

(** ** The registry: [YouTubeMetrics] *)

(** The metrics declared in [YouTubeMetrics.__init__], by kind, under the
    names of the attributes that hold them ([stream_status] is the gauge
    ['youtube_stream_status'], [api_errors] the counter
    ['youtube_api_errors'], and so on). *)
Inductive gauge : Set :=
| stream_status | stream_viewers | video_views | video_likes | video_comments
| video_favorites | engagement_rate | channel_subscribers.

Inductive counter : Set := check_count | error_count | api_errors.

Inductive info : Set := channel_info | video_info.

#[global] Instance gauge_eq_dec : EqDecision gauge.
Proof. solve_decision. Defined.

#[global] Instance counter_eq_dec : EqDecision counter.
Proof. solve_decision. Defined.

#[global] Instance info_eq_dec : EqDecision info.
Proof. solve_decision. Defined.

Definition gauge_code (g : gauge) : nat :=
  match g with
  | stream_status => 0 | stream_viewers => 1 | video_views => 2
  | video_likes => 3 | video_comments => 4 | video_favorites => 5
  | engagement_rate => 6 | channel_subscribers => 7
  end%nat.

Definition gauge_decode (n : nat) : gauge :=
  match n with
  | 0 => stream_status | 1 => stream_viewers | 2 => video_views
  | 3 => video_likes | 4 => video_comments | 5 => video_favorites
  | 6 => engagement_rate | _ => channel_subscribers
  end%nat.

Definition counter_code (c : counter) : nat :=
  match c with check_count => 0 | error_count => 1 | api_errors => 2 end%nat.

Definition counter_decode (n : nat) : counter :=
  match n with 0 => check_count | 1 => error_count | _ => api_errors end%nat.

Definition info_code (i : info) : nat :=
  match i with channel_info => 0 | video_info => 1 end%nat.

Definition info_decode (n : nat) : info :=
  match n with 0 => channel_info | _ => video_info end%nat.

#[global] Instance gauge_countable : Countable gauge.
Proof. by refine (inj_countable' gauge_code gauge_decode _); intros []. Defined.

#[global] Instance counter_countable : Countable counter.
Proof. by refine (inj_countable' counter_code counter_decode _); intros []. Defined.

#[global] Instance info_countable : Countable info.
Proof. by refine (inj_countable' info_code info_decode _); intros []. Defined.

(** The label names each metric is declared with, in the declared order. *)
Definition gauge_labelnames (g : gauge) : list string :=
  match g with
  | stream_status =>
      ["channel_id"; "stream"; "video_id"; "channel_name"; "environment"]
  | channel_subscribers => ["channel_id"; "stream"; "channel_name"]
  | _ => ["channel_id"; "stream"; "video_id"; "channel_name"]
  end%string.

Definition counter_labelnames (c : counter) : list string :=
  ["channel_id"; "stream"; "video_id"; "channel_name"]%string.

Definition info_labelnames (i : info) : list string :=
  match i with
  | channel_info => ["channel_id"; "channel_name"]
  | video_info => ["video_id"; "channel_id"; "stream"]
  end%string.

(** The state of a [YouTubeMetrics] object: the value of every series that
    exists, by kind of metric, and [registered_streams]. *)
Record YouTubeMetrics : Type := {
  gauges : gmap (gauge * list string) Py.float;
  counters : gmap (counter * list string) Z;
  infos : gmap (info * list string) (list (string * Py.value));
  registered_streams : gset string
}.

(** The state of a [YouTubeMetrics] object when its constructor returns. *)
Definition new_metrics : YouTubeMetrics :=
  {| gauges := ∅; counters := ∅; infos := ∅; registered_streams := ∅ |}.

Definition with_gauges (f : gmap (gauge * list string) Py.float ->
                            gmap (gauge * list string) Py.float)
  (m : YouTubeMetrics) : YouTubeMetrics :=
  {| gauges := f (gauges m); counters := counters m; infos := infos m;
     registered_streams := registered_streams m |}.

Definition with_counters (f : gmap (counter * list string) Z ->
                              gmap (counter * list string) Z)
  (m : YouTubeMetrics) : YouTubeMetrics :=
  {| gauges := gauges m; counters := f (counters m); infos := infos m;
     registered_streams := registered_streams m |}.

Definition with_infos (f : gmap (info * list string) (list (string * Py.value)) ->
                           gmap (info * list string) (list (string * Py.value)))
  (m : YouTubeMetrics) : YouTubeMetrics :=
  {| gauges := gauges m; counters := counters m; infos := f (infos m);
     registered_streams := registered_streams m |}.

Definition with_registered (f : gset string -> gset string)
  (m : YouTubeMetrics) : YouTubeMetrics :=
  {| gauges := gauges m; counters := counters m; infos := infos m;
     registered_streams := f (registered_streams m) |}.

(** The value a scrape shows for a counter series; a series that does not
    exist yet starts from 0 when it is first incremented. *)
Definition counter_value (m : YouTubeMetrics) (c : counter) (lbl : list string) : Z :=
  default 0 (counters m !! (c, lbl)).

Definition gauge_value (m : YouTubeMetrics) (g : gauge) (lbl : list string)
  : option Py.float :=
  gauges m !! (g, lbl).

(** ** Computations on the registry that can raise *)

Inductive outcome (A : Type) : Type :=
| Return (a : A)
| Raise.

Arguments Return {A} a.
Arguments Raise {A}.

Definition M (A : Type) : Type := YouTubeMetrics -> outcome A * YouTubeMetrics.

Definition ret {A} (a : A) : M A := fun m => (Return a, m).

Definition raise {A} : M A := fun m => (Raise, m).

Definition bind {A B} (c : M A) (k : A -> M B) : M B :=
  fun m =>
    match c m with
    | (Return a, m') => k a m'
    | (Raise, m') => (Raise, m')
    end.

(** [try: body except Exception: handler] *)
Definition try_except {A} (body handler : M A) : M A :=
  fun m =>
    match body m with
    | (Return a, m') => (Return a, m')
    | (Raise, m') => handler m'
    end.

(** A pure step that raises when it has no result. *)
Definition lift {A} (o : option A) : M A :=
  match o with
  | Some a => ret a
  | None => raise
  end.

Definition gets {A} (f : YouTubeMetrics -> A) : M A := fun m => (Return (f m), m).

Definition modify (f : YouTubeMetrics -> YouTubeMetrics) : M unit :=
  fun m => (Return tt, f m).

Notation "'let*' x ':=' c 'in' k" := (bind c (fun x => k))
  (at level 10, x pattern, c at level 100, k at level 200).

(** [metric.labels(kw)] with keyword arguments [kw]: the keyword names must
    be exactly the declared label names; the series is named by the values
    in the declared order. *)
Fixpoint kw_lookup (k : string) (kw : list (string * string)) : option string :=
  match kw with
  | [] => None
  | (k', v) :: kw' => if String.eqb k' k then Some v else kw_lookup k kw'
  end.

Definition labels (names : list string) (kw : list (string * string))
  : option (list string) :=
  if Nat.eqb (length kw) (length names)
  then mapM (fun name => kw_lookup name kw) names
  else None.

(** [labels] creates the series with its initial value when it is new. *)
Definition ensure `{Countable K} {V} (k : K) (v0 : V) (s : gmap K V) : gmap K V :=
  match s !! k with
  | Some _ => s
  | None => <[k := v0]> s
  end.

Definition float_zero : Py.float := S754_zero false.

(** A number handed to [Gauge.set]. *)
Inductive number : Type :=
| NInt (z : Z)
| NFloat (f : Py.float).

(** [float(value)] as [Gauge.set] applies it. *)
Definition to_float (x : number) : option Py.float :=
  match x with
  | NInt z => Py.float_of_int z
  | NFloat f => Some f
  end.

(** [g.labels(kw).set(x)] *)
Definition gauge_set (g : gauge) (kw : list (string * string)) (x : number) : M unit :=
  let* lbl := lift (labels (gauge_labelnames g) kw) in
  let* _ := modify (with_gauges (ensure (g, lbl) float_zero)) in
  let* f := lift (to_float x) in
  modify (with_gauges <[(g, lbl) := f]>).

(** [c.labels(kw).inc(amount)]: a negative amount is refused. *)
Definition counter_inc (c : counter) (kw : list (string * string)) (amount : Z) : M unit :=
  let* lbl := lift (labels (counter_labelnames c) kw) in
  let* _ := modify (with_counters (ensure (c, lbl) 0)) in
  if amount <? 0 then raise
  else
    let* cur := gets (fun m => counter_value m c lbl) in
    modify (with_counters <[(c, lbl) := cur + amount]>).

Definition is_none (v : Py.value) : bool :=
  match v with
  | Py.VNone => true
  | _ => false
  end.

(** ** The program *)

(** What one [requests.get(url, timeout=10)] followed by [response.json()]
    gives: either of the two raised (connection error, timeout, a body that
    is not JSON), or the decoded value. *)
Inductive reply : Type :=
| Failed
| Json (data : Py.value).

Definition received (r : reply) : option Py.value :=
  match r with
  | Failed => None
  | Json data => Some data
  end.

(** The attributes [YouTubeMonitor.__init__] stores; the three label
    dictionaries are functions of them. *)
Record YouTubeMonitor : Type := {
  channel_id : string;
  video_id : string;
  api_key : string;
  stream_name : string;
  channel_name : string;
  environment : string
}.

Definition base_labels (self : YouTubeMonitor) : list (string * string) :=
  [("stream", stream_name self); ("video_id", video_id self);
   ("channel_id", channel_id self); ("channel_name", channel_name self)]%string.

Definition status_labels (self : YouTubeMonitor) : list (string * string) :=
  [("stream", stream_name self); ("video_id", video_id self);
   ("channel_id", channel_id self); ("channel_name", channel_name self);
   ("environment", environment self)]%string.

Definition channel_labels (self : YouTubeMonitor) : list (string * string) :=
  [("stream", stream_name self); ("channel_id", channel_id self);
   ("channel_name", channel_name self)]%string.

(** The series the three dictionaries name. *)
Definition base_series (self : YouTubeMonitor) : list string :=
  [channel_id self; stream_name self; video_id self; channel_name self].

Definition status_series (self : YouTubeMonitor) : list string :=
  [channel_id self; stream_name self; video_id self; channel_name self;
   environment self].

Definition channel_series (self : YouTubeMonitor) : list string :=
  [channel_id self; stream_name self; channel_name self].

(** [f"{channel_id}_{video_id}_{stream_name}"] *)
Definition stream_key (channel_id video_id stream_name : string) : string :=
  (channel_id ++ "_" ++ video_id ++ "_" ++ stream_name)%string.

(** ['items' in data and data['items']], as a condition. *)
Definition has_items (data : Py.value) : option bool :=
  c ← Py.contains "items" data;
  if c : bool then Py.truthy <$> Py.getitem data "items" else Some false.

(** [data['items'][0]] *)
Definition first_item (data : Py.value) : option Py.value :=
  Py.getitem data "items" ≫= Py.getitem0.

(** The streams [main] monitors. *)
Definition stream1 : YouTubeMonitor :=
  {| channel_id := "XXXXXXXXXXXXXXXXXXXXXXXXXXX";
     video_id := "XXXXXXXXXXX";
     api_key := "XXXXXXXXXXXXXXXXXXXXXXXXXXXXXXXXXX_O-U";
     stream_name := "CHANNEL-1";
     channel_name := "TEST_Master";
     environment := "Production" |}.

Definition stream2 : YouTubeMonitor :=
  {| channel_id := "XXXXXXXXXXXXXXXXXXXXXXXXXXXX";
     video_id := "XXXXXXXXXXXX";
     api_key := "XXXXXXXXXXXXXXXXXXXXXXXXXXXXXXXXXX_O-U";
     stream_name := "CHANNEL-2";
     channel_name := "TEST_Backup";
     environment := "Production" |}.

(** Replies of the API, decoded, on which the model is run. *)
Definition live_reply : reply :=
  Json (Py.VDict
    [("items", Py.VList
       [Py.VDict
          [("snippet", Py.VDict [("liveBroadcastContent", Py.VStr "live");
                                 ("title", Py.VStr "Morning show")]);
           ("liveStreamingDetails",
            Py.VDict [("concurrentViewers", Py.VStr "42")])]])])%string.

Definition offline_reply : reply :=
  Json (Py.VDict
    [("items", Py.VList
       [Py.VDict
          [("snippet", Py.VDict [("liveBroadcastContent", Py.VStr "none");
                                 ("title", Py.VStr "Replay")])]])])%string.

Definition broken_viewers_reply : reply :=
  Json (Py.VDict
    [("items", Py.VList
       [Py.VDict
          [("snippet", Py.VDict [("liveBroadcastContent", Py.VStr "live");
                                 ("title", Py.VStr "Morning show")]);
           ("liveStreamingDetails",
            Py.VDict [("concurrentViewers", Py.VStr "n/a")])]])])%string.

Definition statistics_reply : reply :=
  Json (Py.VDict
    [("items", Py.VList
       [Py.VDict
          [("statistics", Py.VDict [("viewCount", Py.VStr "200");
                                    ("likeCount", Py.VStr "10");
                                    ("commentCount", Py.VStr "3");
                                    ("favoriteCount", Py.VStr "0")])]])])%string.

Definition no_items : Py.value :=
  Py.VDict [("kind", Py.VStr "youtube#videoListResponse");
            ("items", Py.VList [])]%string.

Definition channel_reply1 : reply :=
  Json (Py.VDict
    [("items", Py.VList
       [Py.VDict
          [("statistics", Py.VDict [("subscriberCount", Py.VStr "1000")]);
           ("snippet", Py.VDict [("title", Py.VStr "Test channel");
                                 ("description", Py.VStr "Daily news")])]])])%string.

Definition clock1 : string := "2024-05-01 12:00:00".

#[global] Instance YouTubeMonitor_eq_dec : EqDecision YouTubeMonitor.
Proof. solve_decision. Defined.

(** The three polling methods, as [monitor_loop] calls them. *)
Inductive operation : Set := OpCheckStreamStatus | OpGetVideoEngagement | OpGetChannelInfo.

#[global] Instance operation_eq_dec : EqDecision operation.
Proof. solve_decision. Defined.

(** What the world gives to the pass of [monitor_loop] numbered [count]: the
    replies of the API and the clock. *)
Record world : Type := {
  status_reply : nat -> reply;
  engagement_reply : nat -> reply;
  channel_reply : nat -> reply;
  clock : nat -> string
}.

(** [run_monitor] reads the monitor from a configuration dictionary: a
    missing key raises [KeyError], except ['environment'], which defaults to
    ['Production']. *)
Definition config_monitor (stream_config : list (string * string))
  : option YouTubeMonitor :=
  channel_id ← kw_lookup "channel_id" stream_config;
  video_id ← kw_lookup "video_id" stream_config;
  api_key ← kw_lookup "api_key" stream_config;
  name ← kw_lookup "name" stream_config;
  channel_name ← kw_lookup "channel_name" stream_config;
  Some {| channel_id := channel_id;
          video_id := video_id;
          api_key := api_key;
          stream_name := name;
          channel_name := channel_name;
          environment := default "Production"%string
                           (kw_lookup "environment" stream_config) |}.

(** The series of gauge [g] that a monitor writes. *)
Definition monitor_series (g : gauge) (self : YouTubeMonitor) : list string :=
  match g with
  | stream_status => status_series self
  | channel_subscribers => channel_series self
  | _ => base_series self
  end.

(** The series of [video_info] and of [channel_info] that a monitor writes. *)
Definition video_info_series (self : YouTubeMonitor) : list string :=
  [video_id self; channel_id self; stream_name self].

Definition channel_info_series (self : YouTubeMonitor) : list string :=
  [channel_id self; channel_name self].

(** The series of a monitor: those its three dictionaries of labels name. *)
Definition own_gauges (self : YouTubeMonitor) : list (gauge * list string) :=
  (fun g => (g, monitor_series g self)) <$>
    [stream_status; stream_viewers; video_views; video_likes; video_comments;
     video_favorites; engagement_rate; channel_subscribers].

Definition own_counters (self : YouTubeMonitor) : list (counter * list string) :=
  (fun c => (c, base_series self)) <$> [check_count; error_count; api_errors].

Definition own_infos (self : YouTubeMonitor) : list (info * list string) :=
  [(video_info, video_info_series self); (channel_info, channel_info_series self)].

(** From [m] to [m'], nothing changed outside the series of [self]. *)
Definition touches_only (self : YouTubeMonitor) (m m' : YouTubeMetrics) : Prop :=
  (forall k, k ∉ own_gauges self -> gauges m' !! k = gauges m !! k) /\
  (forall k, k ∉ own_counters self -> counters m' !! k = counters m !! k) /\
  (forall k, k ∉ own_infos self -> infos m' !! k = infos m !! k) /\
  registered_streams m' = registered_streams m.

(** Every [stream_status] series holds 0 or 1. *)
Definition status_binary (m : YouTubeMetrics) : Prop :=
  forall lbl f,
    gauges m !! (stream_status, lbl) = Some f ->
    Some f = Py.float_of_int 0 \/ Some f = Py.float_of_int 1.

(** The first entry of [streams] in [main], as [run_monitor] receives it. *)
Definition stream1_config : list (string * string) :=
  [("name", "CHANNEL-1"); ("channel_name", "TEST_Master");
   ("channel_id", "XXXXXXXXXXXXXXXXXXXXXXXXXXX"); ("video_id", "XXXXXXXXXXX");
   ("api_key", "XXXXXXXXXXXXXXXXXXXXXXXXXXXXXXXXXX_O-U");
   ("environment", "Production")]%string.

(** Statistics in which one count is not a number. *)
Definition unreadable_statistics : Py.value :=
  Py.VDict
    [("items", Py.VList
       [Py.VDict
          [("statistics", Py.VDict [("viewCount", Py.VStr "200");
                                    ("likeCount", Py.VStr "n/a")])]])]%string.

(** A world in which every request fails. *)
Definition failing_world : world :=
  {| status_reply := fun _ => Failed;
     engagement_reply := fun _ => Failed;
     channel_reply := fun _ => Failed;
     clock := fun _ => clock1 |}.

(** A world in which the stream is always offline. *)
Definition offline_world : world :=
  {| status_reply := fun _ => offline_reply;
     engagement_reply := fun _ => statistics_reply;
     channel_reply := fun _ => channel_reply1;
     clock := fun _ => clock1 |}.

Section Program.

(** Python's [int] on a str. *)
Variable int_of_str : string -> option Z.

(** Whether the installed [prometheus_client] refuses [None] among the
    values of an [Info] (its newer versions do). *)
Variable info_rejects_none : bool.

(** [i.labels(kw)]: the series, created empty when it is new. *)
Definition info_labels (i : info) (kw : list (string * string)) : M (list string) :=
  let* lbl := lift (labels (info_labelnames i) kw) in
  let* _ := modify (with_infos (ensure (i, lbl) [])) in
  ret lbl.

(** [child.info(val)] on the series [lbl] of [i]: the keys of [val] must not
    be label names. *)
Definition info_write (i : info) (lbl : list string)
  (val : list (string * Py.value)) : M unit :=
  if existsb (fun kv => existsb (String.eqb (fst kv)) (info_labelnames i)) val
  then raise
  else if info_rejects_none && existsb (fun kv => is_none (snd kv)) val
  then raise
  else modify (with_infos <[(i, lbl) := val]>).

(** [i.labels(kw).info(val)] for a [val] that is evaluated without raising. *)
Definition info_set (i : info) (kw : list (string * string))
  (val : list (string * Py.value)) : M unit :=
  let* lbl := info_labels i kw in
  info_write i lbl val.

(** *** [YouTubeMetrics] *)

Definition initialize_counters (labels : list (string * string)) : M unit :=
  try_except
    (let* _ := counter_inc api_errors labels 0 in
     let* _ := counter_inc check_count labels 0 in
     counter_inc error_count labels 0)
    (ret tt).

Definition register_stream
  (channel_id video_id stream_name channel_name environment : string) : M unit :=
  let stream_key := stream_key channel_id video_id stream_name in
  let* registered := gets (fun m => bool_decide (stream_key ∈ registered_streams m)) in
  if registered : bool then ret tt
  else
    let base_labels :=
      [("channel_id", channel_id); ("stream", stream_name);
       ("video_id", video_id); ("channel_name", channel_name)]%string in
    let status_labels :=
      [("channel_id", channel_id); ("stream", stream_name);
       ("video_id", video_id); ("channel_name", channel_name);
       ("environment", environment)]%string in
    let* _ := gauge_set stream_status status_labels (NInt 0) in
    let* _ := gauge_set stream_viewers base_labels (NInt 0) in
    let* _ := gauge_set video_views base_labels (NInt 0) in
    let* _ := gauge_set video_likes base_labels (NInt 0) in
    let* _ := gauge_set video_comments base_labels (NInt 0) in
    let* _ := gauge_set video_favorites base_labels (NInt 0) in
    let* _ := gauge_set engagement_rate base_labels (NInt 0) in
    let channel_labels :=
      [("channel_id", channel_id); ("stream", stream_name);
       ("channel_name", channel_name)]%string in
    let* _ := gauge_set channel_subscribers channel_labels (NInt 0) in
    let* _ := initialize_counters base_labels in
    modify (with_registered (fun s => s ∪ {[stream_key]})).

(** *** [YouTubeMonitor] *)

(** Lines 208 to 215 of [__init__]: what the constructor does on the metrics
    object that line 206 has chosen for the monitor. *)
Definition init (self : YouTubeMonitor) : M unit :=
  let* _ := register_stream (channel_id self) (video_id self) (stream_name self)
              (channel_name self) (environment self) in
  info_set channel_info
    [("channel_id", channel_id self); ("channel_name", channel_name self)]%string
    [("stream_name", Py.VStr (stream_name self));
     ("environment", Py.VStr (environment self))]%string.

(** [YouTubeMetrics()]: the constructor declares its thirteen metrics in the
    process-wide [REGISTRY] of the client library, which raises on a name
    that is declared already; [declared] tells whether a [YouTubeMetrics]
    was constructed before in the process. *)
Definition YouTubeMetrics_init (declared : bool) : option YouTubeMetrics :=
  if declared then None else Some new_metrics.

(** [__init__] as a whole. [metrics] is the argument of that name, [None]
    when it is left out: line 206 keeps the object it is given (an object
    is true as a condition) and constructs a [YouTubeMetrics] otherwise.
    The result is how the constructor ends and the state of the object the
    monitor holds, if it got one; an object that was passed in is shared,
    so this is also its state for everyone else. *)
Definition YouTubeMonitor_init (self : YouTubeMonitor)
  (metrics : option YouTubeMetrics) (declared : bool)
  : outcome unit * option YouTubeMetrics :=
  match (match metrics with
         | Some m => Some m
         | None => YouTubeMetrics_init declared
         end) with
  | Some m => (fst (init self m), Some (snd (init self m)))
  | None => (Raise, None)
  end.

(** Lines 228 to 244: what [check_stream_status] reads in the decoded
    reply. *)
Definition read_status (data : Py.value) : option (bool * Z * Py.value) :=
  has ← has_items data;
  if has : bool then
    item ← first_item data;
    has_snippet ← Py.contains "snippet" item;
    '(is_live, video_title) ←
      (if has_snippet : bool then
         snippet ← Py.getitem item "snippet";
         content ← Py.get snippet "liveBroadcastContent" Py.VNone;
         title ← Py.get snippet "title" (Py.VStr "No title");
         Some (Py.is_str "live" content, title)
       else Some (false, Py.VStr ""));
    has_details ← Py.contains "liveStreamingDetails" item;
    has_viewers ←
      (if has_details : bool then
         Py.getitem item "liveStreamingDetails" ≫= Py.contains "concurrentViewers"
       else Some false);
    viewer_count ←
      (if has_viewers : bool then
         details ← Py.getitem item "liveStreamingDetails";
         Py.getitem details "concurrentViewers" ≫= Py.int int_of_str
       else Some 0);
    Some (is_live, viewer_count, video_title)
  else Some (false, 0, Py.VStr "").

(** The [try] block of [check_stream_status]; [now] is what
    [time.strftime] gives. *)
Definition check_stream_status_try (self : YouTubeMonitor) (r : reply) (now : string)
  : M (bool * Z * Py.value) :=
  let* _ := counter_inc check_count (base_labels self) 1 in
  let* data := lift (received r) in
  let* (is_live, viewer_count, video_title) := lift (read_status data) in
  let* _ := info_set video_info
              [("video_id", video_id self); ("channel_id", channel_id self);
               ("stream", stream_name self)]%string
              [("title", video_title);
               ("is_live", Py.VStr (Py.str_of_bool is_live));
               ("last_updated", Py.VStr now)]%string in
  let* _ := gauge_set stream_status (status_labels self)
              (NInt (if is_live then 1 else 0)) in
  let* _ := gauge_set stream_viewers (base_labels self) (NInt viewer_count) in
  let* _ := (if negb is_live
             then counter_inc error_count (base_labels self) 1
             else ret tt) in
  ret (is_live, viewer_count, video_title).

(** The [except Exception] block of [check_stream_status]. *)
Definition check_stream_status_except (self : YouTubeMonitor)
  : M (bool * Z * Py.value) :=
  let* _ := gauge_set stream_status (status_labels self) (NInt 0) in
  let* _ := counter_inc error_count (base_labels self) 1 in
  let* _ := counter_inc api_errors (base_labels self) 1 in
  ret (false, 0, Py.VStr "").

Definition check_stream_status (self : YouTubeMonitor) (r : reply) (now : string)
  : M (bool * Z * Py.value) :=
  try_except (check_stream_status_try self r now) (check_stream_status_except self).

(** The four counts of lines 294 to 297. *)
Definition read_engagement (stats : Py.value) : option (Z * Z * Z * Z) :=
  views ← Py.get stats "viewCount" (Py.VInt 0) ≫= Py.int int_of_str;
  likes ← Py.get stats "likeCount" (Py.VInt 0) ≫= Py.int int_of_str;
  comments ← Py.get stats "commentCount" (Py.VInt 0) ≫= Py.int int_of_str;
  favorites ← Py.get stats "favoriteCount" (Py.VInt 0) ≫= Py.int int_of_str;
  Some (views, likes, comments, favorites).

(** The [try] block of [get_video_engagement]. Without items the block
    falls through and the method returns [None]. *)
Definition get_video_engagement_try (self : YouTubeMonitor) (r : reply)
  : M (option (Z * Z * Z)) :=
  let* data := lift (received r) in
  let* has := lift (has_items data) in
  if has : bool then
    let* stats := lift (item ← first_item data; Py.getitem item "statistics") in
    let* (views, likes, comments, favorites) := lift (read_engagement stats) in
    let* _ := gauge_set video_views (base_labels self) (NInt views) in
    let* _ := gauge_set video_likes (base_labels self) (NInt likes) in
    let* _ := gauge_set video_comments (base_labels self) (NInt comments) in
    let* _ := gauge_set video_favorites (base_labels self) (NInt favorites) in
    let* _ := (if 0 <? views then
                 let* ratio := lift (Py.int_truediv likes views) in
                 gauge_set engagement_rate (base_labels self)
                   (NFloat (Py.float_mul_int ratio 100))
               else ret tt) in
    ret (Some (views, likes, comments))
  else ret None.

Definition get_video_engagement_except (self : YouTubeMonitor)
  : M (option (Z * Z * Z)) :=
  let* _ := counter_inc api_errors (base_labels self) 1 in
  ret (Some (0, 0, 0)).

Definition get_video_engagement (self : YouTubeMonitor) (r : reply)
  : M (option (Z * Z * Z)) :=
  try_except (get_video_engagement_try self r) (get_video_engagement_except self).

(** The [try] block of [get_channel_info]. *)
Definition get_channel_info_try (self : YouTubeMonitor) (r : reply) (now : string)
  : M (option Z) :=
  let* data := lift (received r) in
  let* has := lift (has_items data) in
  if has : bool then
    let* item := lift (first_item data) in
    let* stats := lift (Py.getitem item "statistics") in
    let* snippet := lift (Py.get item "snippet" (Py.VDict [])) in
    let* subscriber_count :=
      lift (Py.get stats "subscriberCount" (Py.VInt 0) ≫= Py.int int_of_str) in
    let* _ := gauge_set channel_subscribers (channel_labels self)
                (NInt subscriber_count) in
    let* child := info_labels channel_info
                    [("channel_id", channel_id self);
                     ("channel_name", channel_name self)]%string in
    let* title := lift (Py.get snippet "title" (Py.VStr "")) in
    let* description :=
      lift (d ← Py.get snippet "description" (Py.VStr "");
            Py.slice_concat d 100 "...") in
    let* _ := info_write channel_info child
                [("title", title);
                 ("description", Py.VStr description);
                 ("subscriber_count", Py.VStr (Py.str_of_int subscriber_count));
                 ("last_updated", Py.VStr now)]%string in
    ret (Some subscriber_count)
  else ret None.

Definition get_channel_info_except (self : YouTubeMonitor) : M (option Z) :=
  let* _ := counter_inc api_errors (base_labels self) 1 in
  ret (Some 0).

Definition get_channel_info (self : YouTubeMonitor) (r : reply) (now : string)
  : M (option Z) :=
  try_except (get_channel_info_try self r now) (get_channel_info_except self).

(** [monitor_loop]: one pass of the body of [while True]; [log] is a ghost
    list of the calls made so far. *)

Definition engagement_interval : nat := 5.
Definition channel_interval : nat := 10.

Definition monitor_iteration (self : YouTubeMonitor) (env : world)
  (st : nat * list (nat * operation)) : M (nat * list (nat * operation)) :=
  let (count, log) := st in
  let* _ := check_stream_status self (status_reply env count) (clock env count) in
  let log := log ++ [(count, OpCheckStreamStatus)] in
  let* log :=
    (if (count mod engagement_interval =? 0)%nat then
       let* _ := get_video_engagement self (engagement_reply env count) in
       ret (log ++ [(count, OpGetVideoEngagement)])
     else ret log) in
  let* log :=
    (if (count mod channel_interval =? 0)%nat then
       let* _ := get_channel_info self (channel_reply env count) (clock env count) in
       ret (log ++ [(count, OpGetChannelInfo)])
     else ret log) in
  ret ((count + 1)%nat, log).

(** The first [n] passes of the loop. *)
Fixpoint monitor_passes (self : YouTubeMonitor) (env : world) (n : nat)
  (st : nat * list (nat * operation)) : M (nat * list (nat * operation)) :=
  match n with
  | O => ret st
  | S n' =>
      let* st' := monitor_iteration self env st in
      monitor_passes self env n' st'
  end.

(** [monitor_loop] starts from [count = 0]. *)
Definition monitor_loop (self : YouTubeMonitor) (env : world) (n : nat)
  : M (nat * list (nat * operation)) :=
  monitor_passes self env n (O, []).

(** The calls the specification schedules for the pass numbered [count]. *)
Definition scheduled (count : nat) : list (nat * operation) :=
  [(count, OpCheckStreamStatus)]
  ++ (if (count mod 5 =? 0)%nat then [(count, OpGetVideoEngagement)] else [])
  ++ (if (count mod 10 =? 0)%nat then [(count, OpGetChannelInfo)] else []).

Definition ticks_of (op : operation) (log : list (nat * operation)) : list nat :=
  fst <$> filter (fun e => snd e = op) log.

(** ** Histories of the process

    What the threads of [main] do to one shared registry, in some order:
    direct calls of [register_stream], constructions of monitors with that
    registry as their [metrics] (as [run_monitor] makes them), and calls of
    the three polling methods on a monitor constructed before. *)
Inductive event : Type :=
| Register (channel_id video_id stream_name channel_name environment : string)
| Construct (self : YouTubeMonitor)
| CheckStreamStatus (self : YouTubeMonitor) (r : reply) (now : string)
| GetVideoEngagement (self : YouTubeMonitor) (r : reply)
| GetChannelInfo (self : YouTubeMonitor) (r : reply) (now : string).

Record process : Type := {
  metrics : YouTubeMetrics;
  monitors : list YouTubeMonitor
}.

Definition constructed (self : YouTubeMonitor) (p : process) : bool :=
  bool_decide (self ∈ monitors p).

Definition exec (e : event) (p : process) : option process :=
  match e with
  | Register c v s n env =>
      Some {| metrics := snd (register_stream c v s n env (metrics p));
              monitors := monitors p |}
  | Construct self =>
      Some {| metrics := snd (init self (metrics p));
              monitors := self :: monitors p |}
  | CheckStreamStatus self r now =>
      if constructed self p
      then Some {| metrics := snd (check_stream_status self r now (metrics p));
                   monitors := monitors p |}
      else None
  | GetVideoEngagement self r =>
      if constructed self p
      then Some {| metrics := snd (get_video_engagement self r (metrics p));
                   monitors := monitors p |}
      else None
  | GetChannelInfo self r now =>
      if constructed self p
      then Some {| metrics := snd (get_channel_info self r now (metrics p));
                   monitors := monitors p |}
      else None
  end.

Fixpoint exec_all (es : list event) (p : process) : option process :=
  match es with
  | [] => Some p
  | e :: es' =>
      match exec e p with
      | Some p' => exec_all es' p'
      | None => None
      end
  end.

(** The process when [main] has created the registry. *)
Definition start : process := {| metrics := new_metrics; monitors := [] |}.

Definition reachable (p : process) : Prop :=
  exists es, exec_all es start = Some p.

(** [n] calls of [check_stream_status] in a row, each with its own reply. *)
Fixpoint check_repeatedly (self : YouTubeMonitor) (rs : list (reply * string))
  (m : YouTubeMetrics) : YouTubeMetrics :=
  match rs with
  | [] => m
  | (r, now) :: rs' =>
      check_repeatedly self rs' (snd (check_stream_status self r now m))
  end.

(** ** Reasoning about computations

    [sat c m Q]: run from [m], the computation [c] ends with an outcome and
    a registry that satisfy [Q]. *)
Definition sat {A} (c : M A) (m : YouTubeMetrics)
  (Q : outcome A -> YouTubeMetrics -> Prop) : Prop :=
  Q (fst (c m)) (snd (c m)).

(** ** Notions used in the statements *)

(** [c.inc(a)] on the map of counters: the series starts from 0. *)
Definition bump (c : counter) (lbl : list string) (a : Z)
  (cs : gmap (counter * list string) Z) : gmap (counter * list string) Z :=
  <[(c, lbl) := default 0 (cs !! (c, lbl)) + a]> cs.

Definition failed {A} (c : M A) (m : YouTubeMetrics) : Prop := fst (c m) = Raise.

Definition returned {A} (c : M A) (m : YouTubeMetrics) (a : A) : Prop :=
  fst (c m) = Return a.

(** The series of metric [g] that belongs to an entity. *)
Definition entity_series (g : gauge) (c v s n env : string) : list string :=
  match g with
  | stream_status => [c; s; v; n; env]
  | channel_subscribers => [c; s; n]
  | _ => [c; s; v; n]
  end.

(** What [initialize_counters] does to the counters of [lbl]. *)
Definition shown (lbl : list string) (cs : gmap (counter * list string) Z)
  : gmap (counter * list string) Z :=
  bump error_count lbl 0 (bump check_count lbl 0 (bump api_errors lbl 0 cs)).

(** The record [get_channel_info] writes for a description [d]. *)
Definition channel_record (title : Py.value) (d : string) (subscribers : Z)
  (now : string) : list (string * Py.value) :=
  [("title", title);
   ("description", Py.VStr (String.substring 0 100 d ++ "..."));
   ("subscriber_count", Py.VStr (Py.str_of_int subscribers));
   ("last_updated", Py.VStr now)]%string.

(** The description the reply carries: [snippet.get('description', '')]. *)
Definition reply_description (r : reply) : option Py.value :=
  data ← received r;
  item ← first_item data;
  snippet ← Py.get item "snippet" (Py.VDict []);
  Py.get snippet "description" (Py.VStr "").

Definition counters_le (m m' : YouTubeMetrics) : Prop :=
  forall c lbl, counter_value m c lbl <= counter_value m' c lbl.

(** Every counter series that exists belongs to a registered key. *)
Definition keyed (cs : gmap (counter * list string) Z) (reg : gset string) : Prop :=
  forall cn c s v n,
    is_Some (cs !! (cn, [c; s; v; n])) -> stream_key c v s ∈ reg.

Definition consistent (m : YouTubeMetrics) : Prop :=
  keyed (counters m) (registered_streams m).

Definition invariant (p : process) : Prop :=
  consistent (metrics p) /\
  forall w, w ∈ monitors p ->
    stream_key (channel_id w) (video_id w) (stream_name w)
      ∈ registered_streams (metrics p).

(** The calls of [check_stream_status] in a history that write the series
    [lbl] of [check_count]. *)
Fixpoint checks_of (lbl : list string) (es : list event) : nat :=
  match es with
  | [] => O
  | CheckStreamStatus self _ _ :: es' =>
      ((if decide (base_series self = lbl) then 1 else 0) + checks_of lbl es')%nat
  | _ :: es' => checks_of lbl es'
  end.

(** What the schedule of the specification does to the registry: the call
    [op] of the pass numbered [count] is the method itself, on the reply
    the world gives to that pass, and the calls are made in order. *)
Definition perform (self : YouTubeMonitor) (env : world)
  (call : nat * operation) (m : YouTubeMetrics) : YouTubeMetrics :=
  match call with
  | (count, OpCheckStreamStatus) =>
      snd (check_stream_status self (status_reply env count) (clock env count) m)
  | (count, OpGetVideoEngagement) =>
      snd (get_video_engagement self (engagement_reply env count) m)
  | (count, OpGetChannelInfo) =>
      snd (get_channel_info self (channel_reply env count) (clock env count) m)
  end.

Fixpoint perform_all (self : YouTubeMonitor) (env : world)
  (calls : list (nat * operation)) (m : YouTubeMetrics) : YouTubeMetrics :=
  match calls with
  | [] => m
  | call :: calls' => perform_all self env calls' (perform self env call m)
  end.

(** [run_monitor], for the first [n] passes of the loop. The constructor is
    called with the [metrics] that [run_monitor] received, so it is [init]
    on that object. *)
Definition run_monitor (stream_config : list (string * string)) (env : world)
  (n : nat) : M (nat * list (nat * operation)) :=
  let* monitor := lift (config_monitor stream_config) in
  let* _ := init monitor in
  monitor_loop monitor env n.

(** ** Rules for [sat] *)

Lemma sat_ret {A} (a : A) m Q : Q (Return a) m -> sat (ret a) m Q.
Proof. done. Qed.

Lemma sat_raise {A} m (Q : outcome A -> YouTubeMetrics -> Prop) :
  Q Raise m -> sat raise m Q.
Proof. done. Qed.

Lemma sat_bind {A B} (c : M A) (k : A -> M B) m Q :
  sat c m (fun o m' => match o with
                       | Return a => sat (k a) m' Q
                       | Raise => Q Raise m'
                       end) ->
  sat (bind c k) m Q.
Proof. unfold sat, bind. by destruct (c m) as [[a|] m']. Qed.

Lemma sat_try {A} (body handler : M A) m Q :
  sat body m (fun o m' => match o with
                          | Return a => Q (Return a) m'
                          | Raise => sat handler m' Q
                          end) ->
  sat (try_except body handler) m Q.
Proof. unfold sat, try_except. by destruct (body m) as [[a|] m']. Qed.

Lemma sat_lift {A} (o : option A) m Q :
  match o with Some a => Q (Return a) m | None => Q Raise m end ->
  sat (lift o) m Q.
Proof. by destruct o. Qed.

Lemma sat_gets {A} (f : YouTubeMetrics -> A) m Q :
  Q (Return (f m)) m -> sat (gets f) m Q.
Proof. done. Qed.

Lemma sat_modify f m Q : Q (Return tt) (f m) -> sat (modify f) m Q.
Proof. done. Qed.

Lemma sat_mono {A} (c : M A) m (Q Q' : outcome A -> YouTubeMetrics -> Prop) :
  sat c m Q -> (forall o m', Q o m' -> Q' o m') -> sat c m Q'.
Proof. unfold sat. auto. Qed.

Lemma insert_ensure `{Countable K} {V} (k : K) (v v0 : V) (s : gmap K V) :
  <[k := v]> (ensure k v0 s) = <[k := v]> s.
Proof.
  unfold ensure. destruct (s !! k); [done|]. by rewrite insert_insert_eq.
Qed.

Lemma lookup_ensure_ne `{Countable K} {V} (k k' : K) (v0 : V) (s : gmap K V) :
  k ≠ k' -> ensure k v0 s !! k' = s !! k'.
Proof.
  intros Hne. unfold ensure. destruct (s !! k); [done|].
  by rewrite lookup_insert_ne.
Qed.

Lemma lookup_ensure_eq `{Countable K} {V} (k : K) (v0 : V) (s : gmap K V) :
  ensure k v0 s !! k = Some (default v0 (s !! k)).
Proof.
  unfold ensure. destruct (s !! k) as [v|] eqn:E; simpl; [done|].
  by rewrite lookup_insert_eq.
Qed.

Lemma sat_counter_inc c kw a m lbl Q :
  labels (counter_labelnames c) kw = Some lbl ->
  0 <= a ->
  Q (Return tt) (with_counters <[(c, lbl) := counter_value m c lbl + a]> m) ->
  sat (counter_inc c kw a) m Q.
Proof.
  intros Hl Ha HQ. unfold sat, counter_inc, bind. rewrite Hl. simpl.
  destruct (Z.ltb_spec a 0) as [?|_]; [lia|]. simpl.
  unfold with_counters, counter_value in *. simpl.
  rewrite insert_ensure, lookup_ensure_eq. simpl.
  by destruct (counters m !! (c, lbl)).
Qed.

Lemma sat_gauge_set g kw x m lbl Q :
  labels (gauge_labelnames g) kw = Some lbl ->
  (forall f, to_float x = Some f ->
             Q (Return tt) (with_gauges <[(g, lbl) := f]> m)) ->
  (to_float x = None ->
   Q Raise (with_gauges (ensure (g, lbl) float_zero) m)) ->
  sat (gauge_set g kw x) m Q.
Proof.
  intros Hl Hok Hraise. unfold sat, gauge_set, bind. rewrite Hl. simpl.
  destruct (to_float x) as [f|]; simpl; [|by apply Hraise].
  unfold with_gauges in *. simpl. rewrite insert_ensure. by apply Hok.
Qed.

Lemma sat_info_labels i kw m lbl Q :
  labels (info_labelnames i) kw = Some lbl ->
  Q (Return lbl) (with_infos (ensure (i, lbl) []) m) ->
  sat (info_labels i kw) m Q.
Proof.
  intros Hl HQ. unfold sat, info_labels, bind. by rewrite Hl.
Qed.

Lemma sat_info_write i lbl val m Q :
  Q (Return tt) (with_infos <[(i, lbl) := val]> m) ->
  Q Raise m ->
  sat (info_write i lbl val) m Q.
Proof.
  intros Hok Hraise. unfold sat, info_write.
  destruct (existsb _ val); [done|].
  by destruct (info_rejects_none && _).
Qed.

Lemma sat_info_set i kw val m lbl Q :
  labels (info_labelnames i) kw = Some lbl ->
  Q (Return tt) (with_infos <[(i, lbl) := val]> m) ->
  Q Raise (with_infos (ensure (i, lbl) []) m) ->
  sat (info_set i kw val) m Q.
Proof.
  intros Hl Hok Hraise. unfold info_set. apply sat_bind.
  eapply sat_info_labels; [done|]. apply sat_info_write; [|done].
  unfold with_infos in *. simpl. by rewrite insert_ensure.
Qed.

Lemma sat_counter_bump c kw a m lbl Q :
  labels (counter_labelnames c) kw = Some lbl ->
  0 <= a ->
  Q (Return tt) (with_counters (bump c lbl a) m) ->
  sat (counter_inc c kw a) m Q.
Proof. intros Hl Ha HQ. by eapply sat_counter_inc. Qed.

Lemma to_float_zero f : to_float (NInt 0) = Some f -> f = float_zero.
Proof. intros H. vm_compute in H. by injection H. Qed.

Ltac wp_head :=
  lazymatch goal with
  | |- sat (bind _ _) _ _ => apply sat_bind
  | |- sat (try_except _ _) _ _ => apply sat_try
  | |- sat (ret _) _ _ => apply sat_ret
  | |- sat raise _ _ => apply sat_raise
  | |- sat (lift _) _ _ => apply sat_lift
  | |- sat (gets _) _ _ => apply sat_gets
  | |- sat (modify _) _ _ => apply sat_modify
  | |- sat (counter_inc _ _ _) _ _ =>
      eapply sat_counter_bump; [reflexivity | lia | ]
  | |- sat (gauge_set _ _ _) _ _ =>
      eapply sat_gauge_set; [reflexivity | intros ? ? | intros ? ]
  | |- sat (info_set _ _ _) _ _ =>
      eapply sat_info_set; [reflexivity | | ]
  | |- sat (info_labels _ _) _ _ =>
      eapply sat_info_labels; [reflexivity | ]
  | |- sat (info_write _ _ _) _ _ =>
      apply sat_info_write
  end.

Ltac wp := repeat (wp_head; cbn beta iota).

(** *** [check_stream_status] *)

Lemma check_stream_status_try_counters self r now m :
  sat (check_stream_status_try self r now) m (fun o m1 =>
    let after_check := bump check_count (base_series self) 1 (counters m) in
    registered_streams m1 = registered_streams m /\
    match o with
    | Return (is_live, _, _) =>
        counters m1 =
          if is_live : bool then after_check
          else bump error_count (base_series self) 1 after_check
    | Raise => counters m1 = after_check
    end).
Proof.
  unfold check_stream_status_try. wp.
  destruct (received r) as [data|]; cbn beta iota; wp; [|done].
  destruct (read_status data) as [[[is_live viewer_count] video_title]|];
    cbn beta iota; wp; try done.
  by destruct is_live; cbn [negb]; wp.
Qed.

Lemma check_stream_status_except_spec self m :
  check_stream_status_except self m =
    (Return (false, 0, Py.VStr ""),
     with_counters
       (fun cs => bump api_errors (base_series self) 1
                    (bump error_count (base_series self) 1 cs))
       (with_gauges <[(stream_status, status_series self) := float_zero]> m)).
Proof.
  assert (sat (check_stream_status_except self) m (fun o m' => (o, m') =
    (Return (false, 0, Py.VStr ""),
     with_counters
       (fun cs => bump api_errors (base_series self) 1
                    (bump error_count (base_series self) 1 cs))
       (with_gauges <[(stream_status, status_series self) := float_zero]> m))))
    as Hsat.
  { unfold check_stream_status_except. wp; [|done].
    match goal with H : to_float _ = Some _ |- _ =>
      by rewrite (to_float_zero _ H) end. }
  unfold sat in Hsat. by destruct (check_stream_status_except self m).
Qed.

(** The counters after one call, by what happened in the [try] block. *)
Lemma check_stream_status_counters self r now m :
  let after_check := bump check_count (base_series self) 1 (counters m) in
  counters (snd (check_stream_status self r now m)) =
    match fst (check_stream_status_try self r now m) with
    | Return (true, _, _) => after_check
    | Return (false, _, _) => bump error_count (base_series self) 1 after_check
    | Raise =>
        bump api_errors (base_series self) 1
          (bump error_count (base_series self) 1 after_check)
    end.
Proof.
  pose proof (check_stream_status_try_counters self r now m) as H.
  unfold sat in H. unfold check_stream_status, try_except.
  destruct (check_stream_status_try self r now m) as [[[[[] n] t]|] m1];
    cbn beta iota zeta delta [fst snd] in *; destruct H as [_ H]; try done.
  rewrite check_stream_status_except_spec. cbn [snd with_counters counters].
  by rewrite <- H.
Qed.

Lemma bump_value_eq c lbl a cs :
  default 0 (bump c lbl a cs !! (c, lbl)) = default 0 (cs !! (c, lbl)) + a.
Proof. unfold bump. by rewrite lookup_insert_eq. Qed.

Lemma bump_lookup_ne c lbl a cs k :
  k ≠ (c, lbl) -> bump c lbl a cs !! k = cs !! k.
Proof. intros Hne. unfold bump. by rewrite lookup_insert_ne. Qed.

Lemma bump_grows c lbl a cs k :
  0 <= a -> default 0 (cs !! k) <= default 0 (bump c lbl a cs !! k).
Proof.
  intros Ha. destruct (decide (k = (c, lbl))) as [->|Hne].
  - rewrite bump_value_eq. lia.
  - by rewrite bump_lookup_ne.
Qed.

Ltac counters_simpl :=
  unfold counter_value;
  repeat first
    [ rewrite bump_value_eq
    | rewrite bump_lookup_ne by discriminate ].

(** A request that raises makes the [try] block fail. *)
Lemma check_stream_status_try_Failed self now m :
  failed (check_stream_status_try self Failed now) m.
Proof.
  apply (sat_mono _ _ (fun o _ => o = Raise) (fun o _ => o = Raise)); [|done].
  unfold check_stream_status_try. by wp.
Qed.

(** C1. Every call of [check_stream_status] adds exactly one to the
    [check_count] series of the monitor, whatever the API replied and
    whether the [try] block completed or raised; hence [N] calls in a row,
    with any replies, add exactly [N]. *)
Theorem check_count_heartbeat self :
  (forall r now m,
     counter_value (snd (check_stream_status self r now m))
       check_count (base_series self)
     = counter_value m check_count (base_series self) + 1)
  /\
  (forall rs m,
     counter_value (check_repeatedly self rs m) check_count (base_series self)
     = counter_value m check_count (base_series self) + Z.of_nat (length rs)).
Proof.
  assert (forall r now m,
     counter_value (snd (check_stream_status self r now m))
       check_count (base_series self)
     = counter_value m check_count (base_series self) + 1) as Hone.
  { intros r now m. unfold counter_value at 1.
    rewrite check_stream_status_counters.
    destruct (fst (check_stream_status_try self r now m)) as [[[[] ?] ?]|];
      by counters_simpl. }
  split; [done|].
  induction rs as [|[r now] rs IH]; intros m; simpl.
  - lia.
  - rewrite IH, Hone. lia.
Qed.

(** C2. When the [try] block of [check_stream_status] raises (the request
    or the decoding failed, or the processing of the reply did), the call
    still returns, with the result [(False, 0, "")]; the [stream_status]
    gauge of the monitor is 0, and [error_count] and [api_errors] have each
    grown by exactly 1 (and [check_count] by 1). *)
Theorem check_stream_status_failure self r now m :
  failed (check_stream_status_try self r now) m ->
  fst (check_stream_status self r now m) = Return (false, 0, Py.VStr "") /\
  gauge_value (snd (check_stream_status self r now m))
    stream_status (status_series self) = Some float_zero /\
  counter_value (snd (check_stream_status self r now m))
    error_count (base_series self)
  = counter_value m error_count (base_series self) + 1 /\
  counter_value (snd (check_stream_status self r now m))
    api_errors (base_series self)
  = counter_value m api_errors (base_series self) + 1 /\
  counter_value (snd (check_stream_status self r now m))
    check_count (base_series self)
  = counter_value m check_count (base_series self) + 1.
Proof.
  intros Hfail. unfold failed in Hfail.
  pose proof (check_stream_status_counters self r now m) as Hc.
  cbn zeta in Hc. rewrite Hfail in Hc.
  split; [|split; [|repeat split]].
  - unfold check_stream_status, try_except.
    destruct (check_stream_status_try self r now m) as [o m1].
    simpl in Hfail. subst o. by rewrite check_stream_status_except_spec.
  - unfold check_stream_status, try_except.
    destruct (check_stream_status_try self r now m) as [o m1].
    simpl in Hfail. subst o. rewrite check_stream_status_except_spec.
    unfold gauge_value. cbn [snd with_counters with_gauges gauges].
    by rewrite lookup_insert_eq.
  - unfold counter_value at 1. rewrite Hc. by counters_simpl.
  - unfold counter_value at 1. rewrite Hc. by counters_simpl.
  - unfold counter_value at 1. rewrite Hc. by counters_simpl.
Qed.

(** C8. When the [try] block of [check_stream_status] completes, the call
    returns its result; if that result is not live, [error_count] has grown
    by exactly 1 and [api_errors] is unchanged; if it is live, neither has
    changed. *)
Theorem check_stream_status_offline self r now m is_live viewers title :
  returned (check_stream_status_try self r now) m (is_live, viewers, title) ->
  fst (check_stream_status self r now m) = Return (is_live, viewers, title) /\
  counter_value (snd (check_stream_status self r now m))
    error_count (base_series self)
  = counter_value m error_count (base_series self) + (if is_live then 0 else 1) /\
  counter_value (snd (check_stream_status self r now m))
    api_errors (base_series self)
  = counter_value m api_errors (base_series self).
Proof.
  intros Hret. unfold returned in Hret.
  pose proof (check_stream_status_counters self r now m) as Hc.
  cbn zeta in Hc. rewrite Hret in Hc.
  split; [|split].
  - unfold check_stream_status, try_except.
    destruct (check_stream_status_try self r now m) as [o m1].
    simpl in Hret. by subst o.
  - unfold counter_value at 1. rewrite Hc.
    destruct is_live; counters_simpl; lia.
  - unfold counter_value at 1. rewrite Hc.
    by destruct is_live; counters_simpl.
Qed.

(** *** [get_video_engagement] *)

Ltac fields_simpl :=
  cbn [gauges counters infos registered_streams
       with_gauges with_counters with_infos with_registered];
  repeat first
    [ rewrite lookup_insert_eq
    | rewrite lookup_insert_ne by discriminate
    | rewrite lookup_ensure_ne by discriminate ].

Lemma get_video_engagement_try_spec self r m :
  sat (get_video_engagement_try self r) m (fun o m1 =>
    let rate := (engagement_rate, base_series self) in
    counters m1 = counters m /\
    infos m1 = infos m /\
    registered_streams m1 = registered_streams m /\
    match o with
    | Return None => m1 = m
    | Return (Some (views, likes, _)) =>
        if 0 <? views
        then exists ratio,
               Py.int_truediv likes views = Some ratio /\
               gauges m1 !! rate = Some (Py.float_mul_int ratio 100)
        else gauges m1 !! rate = gauges m !! rate
    | Raise => gauges m1 !! rate = gauges m !! rate
    end).
Proof.
  unfold get_video_engagement_try. wp.
  destruct (received r) as [data|]; cbn beta iota; wp; [|done].
  destruct (has_items data) as [[]|]; cbn beta iota; wp; [|done|done].
  destruct (_ ≫= _) as [stats|]; cbn beta iota; wp; [|done].
  destruct (read_engagement stats) as [[[[views likes] comments] favorites]|];
    cbn beta iota; wp; try (by fields_simpl).
  destruct (0 <? views) eqn:Hviews; wp.
  - destruct (Py.int_truediv likes views) as [ratio|] eqn:Hratio;
      cbn beta iota; wp; try (by fields_simpl).
    rewrite Hviews. simplify_eq/=. split; [done|split; [done|split; [done|]]].
    exists ratio. by fields_simpl.
  - rewrite Hviews. by fields_simpl.
Qed.

Lemma get_video_engagement_except_spec self m :
  get_video_engagement_except self m =
    (Return (Some (0, 0, 0)),
     with_counters (bump api_errors (base_series self) 1) m).
Proof.
  assert (sat (get_video_engagement_except self) m (fun o m' => (o, m') =
    (Return (Some (0, 0, 0)),
     with_counters (bump api_errors (base_series self) 1) m))) as Hsat.
  { unfold get_video_engagement_except. by wp. }
  unfold sat in Hsat. by destruct (get_video_engagement_except self m).
Qed.

Lemma get_video_engagement_counters self r m :
  counters (snd (get_video_engagement self r m)) =
    match fst (get_video_engagement_try self r m) with
    | Return _ => counters m
    | Raise => bump api_errors (base_series self) 1 (counters m)
    end.
Proof.
  pose proof (get_video_engagement_try_spec self r m) as H.
  unfold sat in H. unfold get_video_engagement, try_except.
  destruct (get_video_engagement_try self r m) as [[res|] m1];
    cbn beta iota zeta delta [fst snd] in *; destruct H as (H & _); [done|].
  rewrite get_video_engagement_except_spec. cbn [snd with_counters counters].
  by rewrite H.
Qed.

Lemma get_video_engagement_rate_kept self r m :
  failed (get_video_engagement_try self r) m ->
  gauge_value (snd (get_video_engagement self r m))
    engagement_rate (base_series self)
  = gauge_value m engagement_rate (base_series self).
Proof.
  intros Hfail. unfold failed in Hfail.
  pose proof (get_video_engagement_try_spec self r m) as H.
  unfold sat in H. unfold get_video_engagement, try_except, gauge_value.
  destruct (get_video_engagement_try self r m) as [o m1].
  cbn beta iota zeta delta [fst snd] in *. subst o.
  destruct H as (_ & _ & _ & H).
  by rewrite get_video_engagement_except_spec.
Qed.

(** C3. On a call of [get_video_engagement] whose [try] block completes
    with the parsed counts [views] and [likes]: when [views] is 0 the
    [engagement_rate] gauge of the monitor keeps the value it had; when
    [views] is positive the gauge holds the float [likes / views * 100];
    with 200 views and 10 likes that is the float 5. *)
Theorem engagement_rate_guard self r m views likes comments :
  returned (get_video_engagement_try self r) m (Some (views, likes, comments)) ->
  (views = 0 ->
   gauge_value (snd (get_video_engagement self r m))
     engagement_rate (base_series self)
   = gauge_value m engagement_rate (base_series self)) /\
  (0 < views ->
   exists ratio,
     Py.int_truediv likes views = Some ratio /\
     gauge_value (snd (get_video_engagement self r m))
       engagement_rate (base_series self)
     = Some (Py.float_mul_int ratio 100)) /\
  (views = 200 -> likes = 10 ->
   gauge_value (snd (get_video_engagement self r m))
     engagement_rate (base_series self)
   = Py.float_of_int 5).
Proof.
  intros Hret. unfold returned in Hret.
  pose proof (get_video_engagement_try_spec self r m) as H.
  unfold sat in H. unfold get_video_engagement, try_except, gauge_value.
  destruct (get_video_engagement_try self r m) as [o m1].
  cbn beta iota zeta delta [fst snd] in *. subst o.
  destruct H as (_ & _ & _ & H).
  split; [|split].
  - intros ->. by simpl in H.
  - intros Hpos. by destruct (Z.ltb_spec 0 views); [|lia].
  - intros -> ->. change (0 <? 200) with true in H. cbn iota in H.
    destruct H as (ratio & Hratio & Hrate). cbn [snd]. rewrite Hrate.
    vm_compute in Hratio. by simplify_eq.
Qed.

(** C5, as the code has it. A decoded reply in which ['items'] is missing
    or empty is not an error, and the call changes nothing: no counter
    grows, and every series, the engagement gauges included, keeps the
    value it had. *)
Theorem get_video_engagement_no_items self data m :
  has_items data = Some false ->
  get_video_engagement self (Json data) m = (Return None, m).
Proof.
  intros Hno.
  unfold get_video_engagement, try_except, get_video_engagement_try, bind.
  simpl. by rewrite Hno.
Qed.

(** *** [get_channel_info] *)

Lemma substring_0_length n s : (String.length (String.substring 0 n s) <= n)%nat.
Proof.
  revert s. induction n as [|n IH]; intros [|c s]; simpl; try lia.
  specialize (IH s). lia.
Qed.

Lemma substring_0_short n s :
  (String.length s <= n)%nat -> String.substring 0 n s = s.
Proof.
  revert s. induction n as [|n IH]; intros [|c s]; simpl; intros Hlen;
    try done; try lia.
  rewrite IH; [done|lia].
Qed.

Lemma string_length_app (s1 s2 : string) :
  String.length (s1 ++ s2)%string = (String.length s1 + String.length s2)%nat.
Proof. induction s1 as [|c s1 IH]; simpl; [done|]. by rewrite IH. Qed.

Lemma get_channel_info_try_spec self r now m :
  sat (get_channel_info_try self r now) m (fun o m1 =>
    counters m1 = counters m /\
    registered_streams m1 = registered_streams m /\
    match o with
    | Return None => m1 = m
    | Return (Some subscribers) =>
        exists title d,
          reply_description r = Some (Py.VStr d) /\
          infos m1 !! (channel_info, [channel_id self; channel_name self])
          = Some (channel_record title d subscribers now)
    | Raise => True
    end).
Proof.
  unfold get_channel_info_try, reply_description. wp.
  destruct (received r) as [data|]; cbn beta iota; wp; [|done].
  destruct (has_items data) as [[]|]; cbn beta iota; wp; [|done|done].
  destruct (first_item data) as [item|] eqn:Hitem; cbn beta iota; wp; [|done].
  destruct (Py.getitem item "statistics") as [stats|]; cbn beta iota; wp; [|done].
  destruct (Py.get item "snippet" _) as [snippet|] eqn:Hsnippet;
    cbn beta iota; wp; [|done].
  destruct (_ ≫= _) as [subscribers|]; cbn beta iota; wp; [|done|done].
  destruct (Py.get snippet "title" _) as [title|]; cbn beta iota; wp; [|done].
  destruct (Py.get snippet "description" _) as [d|] eqn:Hd;
    cbn [mbind option_bind]; [|done].
  destruct d as [| | | |d| |]; cbn [Py.slice_concat]; wp; try done.
  split; [done|split; [done|]]. exists title, d. split.
  - cbn [mbind option_bind]. rewrite Hitem. cbn [mbind option_bind].
    rewrite Hsnippet. by cbn [mbind option_bind].
  - by fields_simpl.
Qed.

Lemma get_channel_info_except_spec self m :
  get_channel_info_except self m =
    (Return (Some 0), with_counters (bump api_errors (base_series self) 1) m).
Proof.
  assert (sat (get_channel_info_except self) m (fun o m' => (o, m') =
    (Return (Some 0),
     with_counters (bump api_errors (base_series self) 1) m))) as Hsat.
  { unfold get_channel_info_except. by wp. }
  unfold sat in Hsat. by destruct (get_channel_info_except self m).
Qed.

Lemma get_channel_info_counters self r now m :
  counters (snd (get_channel_info self r now m)) =
    match fst (get_channel_info_try self r now m) with
    | Return _ => counters m
    | Raise => bump api_errors (base_series self) 1 (counters m)
    end.
Proof.
  pose proof (get_channel_info_try_spec self r now m) as H.
  unfold sat in H. unfold get_channel_info, try_except.
  destruct (get_channel_info_try self r now m) as [[res|] m1];
    cbn beta iota zeta delta [fst snd] in *; destruct H as (H & _); [done|].
  rewrite get_channel_info_except_spec. cbn [snd with_counters counters].
  by rewrite H.
Qed.

(** C9. On a call of [get_channel_info] whose [try] block completes having
    found items, the reply carried a description [d] that is a string, and
    the [channel_info] record of the monitor holds, under ["description"],
    the first 100 characters of [d] followed by ["..."]: never more than 103
    characters, and [d] itself followed by ["..."] when [d] has 100
    characters or fewer. *)
Theorem channel_description_truncated self r now m subscribers :
  returned (get_channel_info_try self r now) m (Some subscribers) ->
  exists title d,
    reply_description r = Some (Py.VStr d) /\
    infos (snd (get_channel_info self r now m))
      !! (channel_info, [channel_id self; channel_name self])
    = Some (channel_record title d subscribers now) /\
    Py.dict_lookup "description" (channel_record title d subscribers now)
    = Some (Py.VStr (String.substring 0 100 d ++ "...")) /\
    (String.length (String.substring 0 100 d ++ "...") <= 103)%nat /\
    ((String.length d <= 100)%nat ->
     (String.substring 0 100 d ++ "...")%string = (d ++ "...")%string).
Proof.
  intros Hret. unfold returned in Hret.
  pose proof (get_channel_info_try_spec self r now m) as H.
  unfold sat in H. unfold get_channel_info, try_except.
  destruct (get_channel_info_try self r now m) as [o m1].
  cbn beta iota zeta delta [fst snd] in *. subst o.
  destruct H as (_ & _ & title & d & Hd & Hrec).
  exists title, d. repeat split; try done.
  - rewrite string_length_app. pose proof (substring_0_length 100 d).
    simpl. lia.
  - intros Hlen. by rewrite substring_0_short.
Qed.

(** *** [register_stream] *)

Ltac float_zeros :=
  repeat match goal with
         | H : to_float (NInt 0) = Some ?f |- _ =>
             apply to_float_zero in H; subst f
         end.

Lemma register_stream_registered c v s n env m :
  stream_key c v s ∈ registered_streams m ->
  register_stream c v s n env m = (Return tt, m).
Proof.
  intros Hin. unfold register_stream, bind, gets.
  by rewrite bool_decide_eq_true_2.
Qed.

Lemma register_stream_fresh c v s n env m :
  stream_key c v s ∉ registered_streams m ->
  sat (register_stream c v s n env) m (fun o m1 =>
    o = Return tt /\
    (forall g, gauges m1 !! (g, entity_series g c v s n env) = Some float_zero) /\
    counters m1 = shown [c; s; v; n] (counters m) /\
    infos m1 = infos m /\
    registered_streams m1 = registered_streams m ∪ {[stream_key c v s]} /\
    (forall k, (forall g, k ≠ (g, entity_series g c v s n env)) ->
               gauges m1 !! k = gauges m !! k)).
Proof.
  intros Hnew. unfold register_stream, initialize_counters. wp.
  rewrite bool_decide_eq_false_2 by done. wp; try done.
  float_zeros. split; [done|split; [|repeat split; try done]].
  - by intros []; fields_simpl.
  - intros k Hk.
    pose proof (Hk stream_status). pose proof (Hk stream_viewers).
    pose proof (Hk video_views). pose proof (Hk video_likes).
    pose proof (Hk video_comments). pose proof (Hk video_favorites).
    pose proof (Hk engagement_rate). pose proof (Hk channel_subscribers).
    cbn [entity_series gauges with_gauges with_counters with_registered] in *.
    by rewrite !lookup_insert_ne by done.
Qed.

Lemma register_stream_effect c v s n env m :
  fst (register_stream c v s n env m) = Return tt /\
  registered_streams (snd (register_stream c v s n env m))
  = registered_streams m ∪ {[stream_key c v s]} /\
  infos (snd (register_stream c v s n env m)) = infos m /\
  counters (snd (register_stream c v s n env m))
  = if bool_decide (stream_key c v s ∈ registered_streams m)
    then counters m
    else shown [c; s; v; n] (counters m).
Proof.
  destruct (decide (stream_key c v s ∈ registered_streams m)) as [Hin|Hin].
  - rewrite bool_decide_eq_true_2 by done.
    rewrite register_stream_registered by done. simpl.
    repeat split; try done.
    symmetry. rewrite union_comm_L. apply subseteq_union_1_L.
    by apply singleton_subseteq_l.
  - rewrite bool_decide_eq_false_2 by done.
    pose proof (register_stream_fresh c v s n env m Hin) as H.
    unfold sat in H. by destruct H as (? & _ & ? & ? & ? & _).
Qed.

Lemma info_set_frame i kw val m :
  gauges (snd (info_set i kw val m)) = gauges m /\
  counters (snd (info_set i kw val m)) = counters m /\
  registered_streams (snd (info_set i kw val m)) = registered_streams m.
Proof.
  unfold info_set, info_labels, info_write, bind, lift.
  destruct (labels _ kw); simpl; [|done].
  destruct (existsb _ val); [done|].
  by destruct (info_rejects_none && _).
Qed.

Lemma init_effect self m :
  registered_streams (snd (init self m))
  = registered_streams m
      ∪ {[stream_key (channel_id self) (video_id self) (stream_name self)]} /\
  counters (snd (init self m))
  = if bool_decide (stream_key (channel_id self) (video_id self) (stream_name self)
                      ∈ registered_streams m)
    then counters m
    else shown (base_series self) (counters m).
Proof.
  pose proof (register_stream_effect (channel_id self) (video_id self)
                (stream_name self) (channel_name self) (environment self) m)
    as (Hret & Hreg & _ & Hcnt).
  unfold init, bind, base_series.
  destruct (register_stream _ _ _ _ _ m) as [o m1]. simpl in Hret. subst o.
  cbn [snd] in *. rewrite <- Hreg, <- Hcnt.
  by destruct (info_set_frame channel_info
    [("channel_id", channel_id self); ("channel_name", channel_name self)]%string
    [("stream_name", Py.VStr (stream_name self));
     ("environment", Py.VStr (environment self))]%string m1) as (_ & ? & ?).
Qed.

Lemma check_stream_status_registered self r now m :
  registered_streams (snd (check_stream_status self r now m))
  = registered_streams m.
Proof.
  pose proof (check_stream_status_try_counters self r now m) as H.
  unfold sat in H. unfold check_stream_status, try_except.
  destruct (check_stream_status_try self r now m) as [[res|] m1];
    cbn beta iota zeta delta [fst snd] in *; destruct H as [H _]; [done|].
  by rewrite check_stream_status_except_spec.
Qed.

Lemma get_video_engagement_registered self r m :
  registered_streams (snd (get_video_engagement self r m))
  = registered_streams m.
Proof.
  pose proof (get_video_engagement_try_spec self r m) as H.
  unfold sat in H. unfold get_video_engagement, try_except.
  destruct (get_video_engagement_try self r m) as [[res|] m1];
    cbn beta iota zeta delta [fst snd] in *; destruct H as (_ & _ & H & _);
    [done|].
  by rewrite get_video_engagement_except_spec.
Qed.

Lemma get_channel_info_registered self r now m :
  registered_streams (snd (get_channel_info self r now m))
  = registered_streams m.
Proof.
  pose proof (get_channel_info_try_spec self r now m) as H.
  unfold sat in H. unfold get_channel_info, try_except.
  destruct (get_channel_info_try self r now m) as [[res|] m1];
    cbn beta iota zeta delta [fst snd] in *; destruct H as (_ & H & _);
    [done|].
  by rewrite get_channel_info_except_spec.
Qed.

(** *** Histories *)

Ltac grows :=
  repeat first
    [ done
    | lia
    | etrans; [|apply bump_grows; lia] ].

Lemma shown_grows lbl cs k :
  default 0 (cs !! k) <= default 0 (shown lbl cs !! k).
Proof. unfold shown. grows. Qed.

Lemma register_stream_grows c v s n env m :
  counters_le m (snd (register_stream c v s n env m)).
Proof.
  intros cn lbl. unfold counter_value.
  destruct (register_stream_effect c v s n env m) as (_ & _ & _ & ->).
  case_bool_decide; [done|apply shown_grows].
Qed.

Lemma init_grows self m : counters_le m (snd (init self m)).
Proof.
  intros cn lbl. unfold counter_value.
  destruct (init_effect self m) as (_ & ->).
  case_bool_decide; [done|apply shown_grows].
Qed.

Lemma check_stream_status_grows self r now m :
  counters_le m (snd (check_stream_status self r now m)).
Proof.
  intros cn lbl. unfold counter_value. rewrite check_stream_status_counters.
  destruct (fst (check_stream_status_try self r now m)) as [[[[] ?] ?]|]; grows.
Qed.

Lemma get_video_engagement_grows self r m :
  counters_le m (snd (get_video_engagement self r m)).
Proof.
  intros cn lbl. unfold counter_value. rewrite get_video_engagement_counters.
  destruct (fst (get_video_engagement_try self r m)); grows.
Qed.

Lemma get_channel_info_grows self r now m :
  counters_le m (snd (get_channel_info self r now m)).
Proof.
  intros cn lbl. unfold counter_value. rewrite get_channel_info_counters.
  destruct (fst (get_channel_info_try self r now m)); grows.
Qed.

Lemma exec_grows e p p' :
  exec e p = Some p' -> counters_le (metrics p) (metrics p').
Proof.
  destruct e; simpl; try destruct (constructed self p); intros ?;
    simplify_eq; simpl;
    auto using register_stream_grows, init_grows, check_stream_status_grows,
      get_video_engagement_grows, get_channel_info_grows.
Qed.

(** C6. Along every history of the process (calls of [register_stream],
    constructions of monitors, calls of [check_stream_status],
    [get_video_engagement] and [get_channel_info], in any order and with any
    replies), no series of [check_count], [error_count] or [api_errors]
    ever decreases. *)
Theorem counters_monotonic es p p' :
  exec_all es p = Some p' ->
  forall (c : counter) (lbl : list string),
    counter_value (metrics p) c lbl <= counter_value (metrics p') c lbl.
Proof.
  revert p. induction es as [|e es IH]; intros p Hrun c lbl; simpl in Hrun.
  - simplify_eq. lia.
  - destruct (exec e p) as [p1|] eqn:He; [|done].
    etrans; [by eapply exec_grows|by apply IH].
Qed.

Lemma bump_value c lbl a cs k :
  default 0 (bump c lbl a cs !! k)
  = default 0 (cs !! k) + (if decide (k = (c, lbl)) then a else 0).
Proof.
  case_decide as Hk.
  - subst k. apply bump_value_eq.
  - rewrite bump_lookup_ne by done. lia.
Qed.

Lemma exec_check_count e p p' lbl :
  exec e p = Some p' ->
  counter_value (metrics p') check_count lbl
  = counter_value (metrics p) check_count lbl + Z.of_nat (checks_of lbl [e]).
Proof.
  unfold counter_value.
  destruct e as [c v s n env|self|self r now|self r|self r now]; simpl;
    try (destruct (constructed self p); [|done]); intros ?; simplify_eq; simpl.
  - destruct (register_stream_effect c v s n env (metrics p)) as (_ & _ & _ & ->).
    case_bool_decide; [lia|]. unfold shown. rewrite !bump_value.
    repeat case_decide; lia.
  - destruct (init_effect self (metrics p)) as (_ & ->).
    case_bool_decide; [lia|]. unfold shown. rewrite !bump_value.
    repeat case_decide; lia.
  - rewrite check_stream_status_counters.
    destruct (fst (check_stream_status_try self r now (metrics p)))
      as [[[[] ?] ?]|]; rewrite !bump_value;
      repeat case_decide; simplify_eq; lia.
  - rewrite get_video_engagement_counters.
    destruct (fst (get_video_engagement_try self r (metrics p)));
      rewrite ?bump_value; repeat case_decide; simplify_eq; lia.
  - rewrite get_channel_info_counters.
    destruct (fst (get_channel_info_try self r now (metrics p)));
      rewrite ?bump_value; repeat case_decide; simplify_eq; lia.
Qed.

(** The heartbeat along a history: whatever else happens in between, a
    series of [check_count] grows by the number of calls of
    [check_stream_status] made by the monitors it belongs to. *)
Lemma check_count_counts_calls es p p' lbl :
  exec_all es p = Some p' ->
  counter_value (metrics p') check_count lbl
  = counter_value (metrics p) check_count lbl + Z.of_nat (checks_of lbl es).
Proof.
  revert p. induction es as [|e es IH]; intros p Hrun; simpl in Hrun.
  - simplify_eq. simpl. lia.
  - destruct (exec e p) as [p1|] eqn:He; [|done].
    rewrite (IH p1 Hrun), (exec_check_count e p p1 lbl He).
    destruct e; simpl; lia.
Qed.

Lemma keyed_bump cn0 c s v n a cs reg :
  keyed cs reg -> stream_key c v s ∈ reg -> keyed (bump cn0 [c; s; v; n] a cs) reg.
Proof.
  intros Hk Hin cn c' s' v' n' Hsome.
  destruct (decide ((cn, [c'; s'; v'; n']) = (cn0, [c; s; v; n]))) as [Heq|Hne].
  - by simplify_eq.
  - rewrite bump_lookup_ne in Hsome by done. by eapply Hk.
Qed.

Lemma keyed_mono cs reg reg' : keyed cs reg -> reg ⊆ reg' -> keyed cs reg'.
Proof. intros Hk Hsub cn c s v n Hsome. apply Hsub. by eapply Hk. Qed.

Lemma keyed_shown c s v n cs reg :
  keyed cs reg -> stream_key c v s ∈ reg -> keyed (shown [c; s; v; n] cs) reg.
Proof. intros Hk Hin. unfold shown. by repeat apply keyed_bump. Qed.

Lemma register_stream_consistent c v s n env m :
  consistent m -> consistent (snd (register_stream c v s n env m)).
Proof.
  unfold consistent. intros Hk.
  destruct (register_stream_effect c v s n env m) as (_ & -> & _ & ->).
  destruct (decide (stream_key c v s ∈ registered_streams m)) as [Hin|Hin].
  - rewrite bool_decide_eq_true_2 by done.
    eapply keyed_mono; [done|]. apply union_subseteq_l.
  - rewrite bool_decide_eq_false_2 by done. apply keyed_shown.
    + eapply keyed_mono; [done|]. apply union_subseteq_l.
    + apply elem_of_union_r. by apply elem_of_singleton.
Qed.

Lemma init_consistent self m : consistent m -> consistent (snd (init self m)).
Proof.
  unfold consistent. intros Hk.
  destruct (init_effect self m) as (-> & ->).
  destruct (decide (stream_key (channel_id self) (video_id self) (stream_name self)
                      ∈ registered_streams m)) as [Hin|Hin].
  - rewrite bool_decide_eq_true_2 by done.
    eapply keyed_mono; [done|]. apply union_subseteq_l.
  - rewrite bool_decide_eq_false_2 by done. apply keyed_shown.
    + eapply keyed_mono; [done|]. apply union_subseteq_l.
    + apply elem_of_union_r. by apply elem_of_singleton.
Qed.

Lemma check_stream_status_consistent self r now m :
  stream_key (channel_id self) (video_id self) (stream_name self)
    ∈ registered_streams m ->
  consistent m -> consistent (snd (check_stream_status self r now m)).
Proof.
  unfold consistent. intros Hin Hk.
  rewrite check_stream_status_registered, check_stream_status_counters.
  destruct (fst (check_stream_status_try self r now m)) as [[[[] ?] ?]|];
    by repeat apply keyed_bump.
Qed.

Lemma get_video_engagement_consistent self r m :
  stream_key (channel_id self) (video_id self) (stream_name self)
    ∈ registered_streams m ->
  consistent m -> consistent (snd (get_video_engagement self r m)).
Proof.
  unfold consistent. intros Hin Hk.
  rewrite get_video_engagement_registered, get_video_engagement_counters.
  destruct (fst (get_video_engagement_try self r m));
    by repeat apply keyed_bump.
Qed.

Lemma get_channel_info_consistent self r now m :
  stream_key (channel_id self) (video_id self) (stream_name self)
    ∈ registered_streams m ->
  consistent m -> consistent (snd (get_channel_info self r now m)).
Proof.
  unfold consistent. intros Hin Hk.
  rewrite get_channel_info_registered, get_channel_info_counters.
  destruct (fst (get_channel_info_try self r now m));
    by repeat apply keyed_bump.
Qed.

Lemma exec_invariant e p p' : invariant p -> exec e p = Some p' -> invariant p'.
Proof.
  intros [Hc Hw] He. destruct e as [c v s n env|self|self r now|self r|self r now];
    simpl in He.
  - simplify_eq. split; simpl.
    + by apply register_stream_consistent.
    + intros w Hin.
      destruct (register_stream_effect c v s n env (metrics p)) as (_ & -> & _).
      apply elem_of_union_l. by apply Hw.
  - simplify_eq. split; simpl.
    + by apply init_consistent.
    + intros w Hin. destruct (init_effect self (metrics p)) as (-> & _).
      apply elem_of_cons in Hin as [->|Hin].
      * apply elem_of_union_r. by apply elem_of_singleton.
      * apply elem_of_union_l. by apply Hw.
  - unfold constructed in He. case_bool_decide as Hself; [|done].
    simplify_eq. split; simpl.
    + apply check_stream_status_consistent; [by apply Hw|done].
    + intros w Hin. rewrite check_stream_status_registered. by apply Hw.
  - unfold constructed in He. case_bool_decide as Hself; [|done].
    simplify_eq. split; simpl.
    + apply get_video_engagement_consistent; [by apply Hw|done].
    + intros w Hin. rewrite get_video_engagement_registered. by apply Hw.
  - unfold constructed in He. case_bool_decide as Hself; [|done].
    simplify_eq. split; simpl.
    + apply get_channel_info_consistent; [by apply Hw|done].
    + intros w Hin. rewrite get_channel_info_registered. by apply Hw.
Qed.

Lemma exec_all_invariant es p p' :
  invariant p -> exec_all es p = Some p' -> invariant p'.
Proof.
  revert p. induction es as [|e es IH]; intros p Hinv Hrun; simpl in Hrun.
  - by simplify_eq.
  - destruct (exec e p) as [p1|] eqn:He; [|done].
    eapply IH; [|done]. by eapply exec_invariant.
Qed.

(** In every state the process can reach, the counters that exist belong to
    registered keys. *)
Lemma reachable_consistent p : reachable p -> consistent (metrics p).
Proof.
  intros [es Hrun]. eapply (exec_all_invariant es start p); [|done].
  split.
  - intros cn c s v n [x Hx]. by cbv [start metrics new_metrics counters] in Hx.
  - intros w Hin. by apply elem_of_nil in Hin.
Qed.

Lemma exec_all_registered es p p' k :
  exec_all es p = Some p' ->
  k ∈ registered_streams (metrics p) -> k ∈ registered_streams (metrics p').
Proof.
  revert p. induction es as [|e es IH]; intros p Hrun Hin; simpl in Hrun.
  - by simplify_eq.
  - destruct (exec e p) as [p1|] eqn:He; [|done].
    apply (IH p1); [done|].
    destruct e as [c v s n env|self|self r now|self r|self r now]; simpl in He;
      try (destruct (constructed self p); [|done]); simplify_eq; simpl.
    + destruct (register_stream_effect c v s n env (metrics p)) as (_ & -> & _).
      by apply elem_of_union_l.
    + destruct (init_effect self (metrics p)) as (-> & _).
      by apply elem_of_union_l.
    + by rewrite check_stream_status_registered.
    + by rewrite get_video_engagement_registered.
    + by rewrite get_channel_info_registered.
Qed.

Lemma shown_lookup_new lbl cs cn :
  cs !! (cn, lbl) = None -> shown lbl cs !! (cn, lbl) = Some 0.
Proof.
  intros Hnone. unfold shown, bump.
  destruct cn; repeat first
    [ rewrite lookup_insert_eq | rewrite lookup_insert_ne by discriminate ];
    by rewrite ?Hnone.
Qed.

Lemma shown_lookup_other lbl cs k :
  (forall cn, k ≠ (cn, lbl)) -> shown lbl cs !! k = cs !! k.
Proof. intros Hk. unfold shown. by rewrite !bump_lookup_ne. Qed.

Lemma register_stream_gauges_frame c v s n env m k :
  (forall g, k ≠ (g, entity_series g c v s n env)) ->
  gauges (snd (register_stream c v s n env m)) !! k = gauges m !! k.
Proof.
  intros Hk.
  destruct (decide (stream_key c v s ∈ registered_streams m)) as [Hin|Hin].
  - by rewrite register_stream_registered.
  - pose proof (register_stream_fresh c v s n env m Hin) as H.
    unfold sat in H. destruct H as (_ & _ & _ & _ & _ & H). by apply H.
Qed.

(** C4. [register_stream] is idempotent. In a state the process can be in
    (every existing counter belongs to a registered key), the first call for
    a key returns with every gauge series of the entity at 0, every counter
    series of the entity present with value 0, and the key registered; a
    later call with the same [channel_id], [video_id] and [stream_name],
    right away or after any history of the process, changes nothing. *)
Theorem register_stream_idempotent c v s n env m :
  stream_key c v s ∉ registered_streams m ->
  consistent m ->
  fst (register_stream c v s n env m) = Return tt /\
  (forall g,
     gauge_value (snd (register_stream c v s n env m))
       g (entity_series g c v s n env) = Some float_zero) /\
  (forall cn,
     counters (snd (register_stream c v s n env m)) !! (cn, [c; s; v; n])
     = Some 0) /\
  stream_key c v s ∈ registered_streams (snd (register_stream c v s n env m)) /\
  (forall n' env',
     register_stream c v s n' env' (snd (register_stream c v s n env m))
     = (Return tt, snd (register_stream c v s n env m))) /\
  (forall es mons p' n' env',
     exec_all es {| metrics := snd (register_stream c v s n env m);
                    monitors := mons |} = Some p' ->
     register_stream c v s n' env' (metrics p') = (Return tt, metrics p')).
Proof.
  intros Hnew Hcons.
  pose proof (register_stream_fresh c v s n env m Hnew) as H.
  unfold sat in H. destruct H as (Hret & Hg & Hc & _ & Hreg & _).
  assert (stream_key c v s
            ∈ registered_streams (snd (register_stream c v s n env m))) as Hin.
  { rewrite Hreg. apply elem_of_union_r. by apply elem_of_singleton. }
  repeat split; try done.
  - intros cn. rewrite Hc. apply shown_lookup_new.
    destruct (counters m !! (cn, [c; s; v; n])) eqn:E; [|done].
    destruct Hnew. by eapply Hcons.
  - intros n' env'. by apply register_stream_registered.
  - intros es mons p' n' env' Hrun. apply register_stream_registered.
    by apply (exec_all_registered es _ p' _ Hrun).
Qed.

(** C10. The key of a registration is built from [channel_id], [video_id]
    and [stream_name] only: after a call for a key, a call with the same
    three and another [channel_name] or [environment] returns at once and
    leaves the registry as it is; the series that carry the new
    [channel_name], or the new [environment], are not created. *)
Theorem register_stream_ignores_names c v s n env n' env' m :
  register_stream c v s n' env' (snd (register_stream c v s n env m))
  = (Return tt, snd (register_stream c v s n env m)) /\
  (n ≠ n' ->
   forall g,
     gauges m !! (g, entity_series g c v s n' env') = None ->
     gauges (snd (register_stream c v s n' env'
                    (snd (register_stream c v s n env m))))
       !! (g, entity_series g c v s n' env') = None) /\
  (env ≠ env' ->
   gauges m !! (stream_status, [c; s; v; n'; env']) = None ->
   gauges (snd (register_stream c v s n' env'
                  (snd (register_stream c v s n env m))))
     !! (stream_status, [c; s; v; n'; env']) = None) /\
  (n ≠ n' ->
   forall cn,
     counters m !! (cn, [c; s; v; n']) = None ->
     counters (snd (register_stream c v s n' env'
                      (snd (register_stream c v s n env m))))
       !! (cn, [c; s; v; n']) = None).
Proof.
  destruct (register_stream_effect c v s n env m) as (_ & Hreg & _ & Hc).
  assert (register_stream c v s n' env' (snd (register_stream c v s n env m))
          = (Return tt, snd (register_stream c v s n env m))) as Hsame.
  { apply register_stream_registered. rewrite Hreg.
    apply elem_of_union_r. by apply elem_of_singleton. }
  rewrite Hsame. cbn [snd]. split; [done|split; [|split]].
  - intros Hn g Hnone. rewrite register_stream_gauges_frame; [done|].
    intros g'. destruct g, g'; cbn [entity_series]; congruence.
  - intros Henv Hnone. rewrite register_stream_gauges_frame; [done|].
    intros g'. destruct g'; cbn [entity_series]; congruence.
  - intros Hn cn Hnone. rewrite Hc. case_bool_decide; [done|].
    rewrite shown_lookup_other; [done|]. congruence.
Qed.

(** *** [monitor_loop] *)

Lemma check_stream_status_returns self r now m :
  exists res, fst (check_stream_status self r now m) = Return res.
Proof.
  unfold check_stream_status, try_except.
  destruct (check_stream_status_try self r now m) as [[res|] m1]; [by eexists|].
  rewrite check_stream_status_except_spec. by eexists.
Qed.

Lemma get_video_engagement_returns self r m :
  exists res, fst (get_video_engagement self r m) = Return res.
Proof.
  unfold get_video_engagement, try_except.
  destruct (get_video_engagement_try self r m) as [[res|] m1]; [by eexists|].
  rewrite get_video_engagement_except_spec. by eexists.
Qed.

Lemma get_channel_info_returns self r now m :
  exists res, fst (get_channel_info self r now m) = Return res.
Proof.
  unfold get_channel_info, try_except.
  destruct (get_channel_info_try self r now m) as [[res|] m1]; [by eexists|].
  rewrite get_channel_info_except_spec. by eexists.
Qed.

Lemma monitor_iteration_calls self env count log m :
  fst (monitor_iteration self env (count, log) m)
  = Return (S count, log ++ scheduled count).
Proof.
  unfold monitor_iteration, scheduled, engagement_interval, channel_interval, bind.
  destruct (check_stream_status_returns self (status_reply env count)
              (clock env count) m) as [res Hres].
  destruct (check_stream_status _ _ _ m) as [o m1]. simpl in Hres. subst o.
  destruct (count mod 5 =? 0)%nat.
  - destruct (get_video_engagement_returns self (engagement_reply env count) m1)
      as [res2 Hres2].
    destruct (get_video_engagement _ _ m1) as [o m2]. simpl in Hres2. subst o.
    cbn [ret].
    destruct (count mod 10 =? 0)%nat.
    + destruct (get_channel_info_returns self (channel_reply env count)
                  (clock env count) m2) as [res3 Hres3].
      destruct (get_channel_info _ _ _ m2) as [o m3]. simpl in Hres3. subst o.
      cbn [ret fst]. rewrite Nat.add_1_r. by rewrite <- !app_assoc.
    + cbn [ret fst]. rewrite Nat.add_1_r. by rewrite <- !app_assoc.
  - cbn [ret].
    destruct (count mod 10 =? 0)%nat.
    + destruct (get_channel_info_returns self (channel_reply env count)
                  (clock env count) m1) as [res3 Hres3].
      destruct (get_channel_info _ _ _ m1) as [o m3]. simpl in Hres3. subst o.
      cbn [ret fst]. rewrite Nat.add_1_r. by rewrite <- !app_assoc.
    + cbn [ret fst]. rewrite Nat.add_1_r. by rewrite app_nil_r.
Qed.

Lemma monitor_passes_calls self env n count log m :
  fst (monitor_passes self env n (count, log) m)
  = Return ((count + n)%nat, log ++ flat_map scheduled (seq count n)).
Proof.
  revert count log m. induction n as [|n IH]; intros count log m.
  - simpl. by rewrite Nat.add_0_r, app_nil_r.
  - cbn [monitor_passes]. unfold bind.
    pose proof (monitor_iteration_calls self env count log m) as Hit.
    destruct (monitor_iteration self env (count, log) m) as [o m1].
    simpl in Hit. subst o. rewrite IH. cbn [seq flat_map].
    rewrite <- app_assoc. do 2 f_equal. lia.
Qed.

Lemma scheduled_In count k op :
  In (k, op) (scheduled count) <->
  k = count /\
  match op with
  | OpCheckStreamStatus => True
  | OpGetVideoEngagement => (count mod 5 = 0)%nat
  | OpGetChannelInfo => (count mod 10 = 0)%nat
  end.
Proof.
  unfold scheduled.
  destruct (Nat.eqb_spec (count mod 5) 0), (Nat.eqb_spec (count mod 10) 0),
    op; simpl; split; intros Hin; try tauto;
    repeat match goal with
           | H : _ \/ _ |- _ => destruct H
           | H : _ /\ _ |- _ => destruct H
           | H : (_, _) = (_, _) |- _ => inversion H; clear H
           | H : False |- _ => destruct H
           end; subst; try discriminate; try tauto; try lia.
Qed.

Lemma scheduled_log_In n k op :
  In (k, op) (flat_map scheduled (seq 0 n)) <->
  (k < n)%nat /\
  match op with
  | OpCheckStreamStatus => True
  | OpGetVideoEngagement => (k mod 5 = 0)%nat
  | OpGetChannelInfo => (k mod 10 = 0)%nat
  end.
Proof.
  rewrite in_flat_map. split.
  - intros (count & Hseq & Hin). apply in_seq in Hseq.
    apply scheduled_In in Hin as [-> Hop]. split; [lia|done].
  - intros [Hlt Hop]. exists k. split; [apply in_seq; lia|].
    by apply scheduled_In.
Qed.

Lemma perform_all_app self env calls1 calls2 m :
  perform_all self env (calls1 ++ calls2) m
  = perform_all self env calls2 (perform_all self env calls1 m).
Proof.
  revert m. induction calls1 as [|call calls1 IH]; intros m; [done|].
  cbn [app perform_all]. apply IH.
Qed.

Lemma monitor_iteration_state self env count log m :
  snd (monitor_iteration self env (count, log) m)
  = perform_all self env (scheduled count) m.
Proof.
  unfold monitor_iteration, scheduled, engagement_interval, channel_interval, bind.
  destruct (check_stream_status_returns self (status_reply env count)
              (clock env count) m) as [res Hres].
  cbn [app perform_all perform].
  destruct (check_stream_status _ _ _ m) as [o m1]. cbn [fst snd] in *. subst o.
  destruct (count mod 5 =? 0)%nat.
  - destruct (get_video_engagement_returns self (engagement_reply env count) m1)
      as [res2 Hres2].
    cbn [app perform_all perform].
    destruct (get_video_engagement _ _ m1) as [o m2]. cbn [fst snd] in *. subst o.
    cbn [ret].
    destruct (count mod 10 =? 0)%nat; cbn [ret snd perform_all perform]; [|done].
    destruct (get_channel_info_returns self (channel_reply env count)
                (clock env count) m2) as [res3 Hres3].
    destruct (get_channel_info _ _ _ m2) as [o m3]. cbn [fst snd] in *. by subst o.
  - cbn [ret app].
    destruct (count mod 10 =? 0)%nat; cbn [ret snd perform_all perform]; [|done].
    destruct (get_channel_info_returns self (channel_reply env count)
                (clock env count) m1) as [res3 Hres3].
    destruct (get_channel_info _ _ _ m1) as [o m3]. cbn [fst snd] in *. by subst o.
Qed.

Lemma monitor_passes_state self env n count log m :
  snd (monitor_passes self env n (count, log) m)
  = perform_all self env (flat_map scheduled (seq count n)) m.
Proof.
  revert count log m. induction n as [|n IH]; intros count log m; [done|].
  cbn [monitor_passes seq flat_map]. unfold bind.
  pose proof (monitor_iteration_calls self env count log m) as Hcalls.
  pose proof (monitor_iteration_state self env count log m) as Hstate.
  destruct (monitor_iteration self env (count, log) m) as [o m1].
  cbn [fst snd] in *. subst o m1.
  by rewrite IH, perform_all_app.
Qed.

(** The counters after one call of the loop, when the request failed. *)
Lemma perform_failed self env count op m :
  status_reply env count = Failed ->
  engagement_reply env count = Failed ->
  channel_reply env count = Failed ->
  counters (perform self env (count, op) m) =
    match op with
    | OpCheckStreamStatus =>
        bump api_errors (base_series self) 1
          (bump error_count (base_series self) 1
             (bump check_count (base_series self) 1 (counters m)))
    | _ => bump api_errors (base_series self) 1 (counters m)
    end.
Proof.
  intros Hs He Hc. destruct op; cbn [perform].
  - rewrite Hs, check_stream_status_counters.
    by rewrite (check_stream_status_try_Failed self (clock env count) m).
  - by rewrite He, get_video_engagement_counters.
  - by rewrite Hc, get_channel_info_counters.
Qed.

Lemma perform_all_failed self env calls m :
  (forall count, status_reply env count = Failed) ->
  (forall count, engagement_reply env count = Failed) ->
  (forall count, channel_reply env count = Failed) ->
  counter_value (perform_all self env calls m) api_errors (base_series self)
  = counter_value m api_errors (base_series self) + Z.of_nat (length calls) /\
  counter_value (perform_all self env calls m) error_count (base_series self)
  = counter_value m error_count (base_series self)
    + Z.of_nat (length (ticks_of OpCheckStreamStatus calls)) /\
  counter_value (perform_all self env calls m) check_count (base_series self)
  = counter_value m check_count (base_series self)
    + Z.of_nat (length (ticks_of OpCheckStreamStatus calls)).
Proof.
  intros Hs He Hc. revert m.
  induction calls as [|[count op] calls IH]; intros m.
  - cbn [perform_all length]. unfold ticks_of. cbn. lia.
  - cbn [perform_all]. destruct (IH (perform self env (count, op) m))
      as (-> & -> & ->).
    unfold counter_value, ticks_of.
    rewrite (perform_failed self env count op m (Hs count) (He count) (Hc count)).
    rewrite filter_cons. cbn [snd].
    destruct op; (case_decide; [|try done]); try discriminate;
      cbn [fmap list_fmap length]; rewrite !bump_value;
      repeat case_decide; simplify_eq; lia.
Qed.

(** C7. Started at [count = 0], the loop never stops on an exception, and
    after its first [n] passes the registry is the one that the calls of the
    schedule produce, made in order, each with the reply of its pass:
    [check_stream_status] on every pass, [get_video_engagement] on the
    passes whose number is a multiple of 5 and [get_channel_info] on those
    whose number is a multiple of 10. Over the passes 0 to 10 these are the
    passes 0, 5, 10 and the passes 0, 10; when every request fails,
    [api_errors] has then grown by 11 + 3 + 2 and [error_count] and
    [check_count] by 11. *)
Theorem monitor_loop_cadence self env m :
  (forall n,
     exists log,
       monitor_loop self env n m
       = (Return (n, log), perform_all self env log m) /\
       log = flat_map scheduled (seq 0 n) /\
       (forall k, In (k, OpCheckStreamStatus) log <-> (k < n)%nat) /\
       (forall k, In (k, OpGetVideoEngagement) log <->
                  (k < n)%nat /\ (k mod 5 = 0)%nat) /\
       (forall k, In (k, OpGetChannelInfo) log <->
                  (k < n)%nat /\ (k mod 10 = 0)%nat)) /\
  (exists log,
     monitor_loop self env 11 m
     = (Return (11%nat, log), perform_all self env log m) /\
     ticks_of OpCheckStreamStatus log = seq 0 11 /\
     ticks_of OpGetVideoEngagement log = [0; 5; 10]%nat /\
     ticks_of OpGetChannelInfo log = [0; 10]%nat) /\
  ((forall count, status_reply env count = Failed) ->
   (forall count, engagement_reply env count = Failed) ->
   (forall count, channel_reply env count = Failed) ->
   counter_value (snd (monitor_loop self env 11 m)) api_errors (base_series self)
   = counter_value m api_errors (base_series self) + 16 /\
   counter_value (snd (monitor_loop self env 11 m)) error_count (base_series self)
   = counter_value m error_count (base_series self) + 11 /\
   counter_value (snd (monitor_loop self env 11 m)) check_count (base_series self)
   = counter_value m check_count (base_series self) + 11).
Proof.
  assert (forall n, monitor_loop self env n m
                    = (Return (n, flat_map scheduled (seq 0 n)),
                       perform_all self env (flat_map scheduled (seq 0 n)) m))
    as Hloop.
  { intros n. unfold monitor_loop.
    pose proof (monitor_passes_calls self env n O [] m) as Hcalls.
    pose proof (monitor_passes_state self env n O [] m) as Hstate.
    destruct (monitor_passes self env n (O, []) m) as [o m1].
    cbn [fst snd] in *. by subst o m1. }
  split; [|split].
  - intros n. exists (flat_map scheduled (seq 0 n)).
    split; [done|split; [done|]].
    split; [|split]; intros k; rewrite scheduled_log_In; tauto.
  - exists (flat_map scheduled (seq 0 11)). split; [done|]. by vm_compute.
  - intros Hs He Hc. rewrite Hloop. cbn [snd].
    destruct (perform_all_failed self env (flat_map scheduled (seq 0 11)) m
                Hs He Hc) as (-> & -> & ->).
    by repeat split.
Qed.

(** ** Further properties of the program *)

Lemma info_set_accepted i kw val m lbl :
  labels (info_labelnames i) kw = Some lbl ->
  existsb (fun kv => existsb (String.eqb (fst kv)) (info_labelnames i)) val = false ->
  existsb (fun kv => is_none (snd kv)) val = false ->
  info_set i kw val m = (Return tt, with_infos <[(i, lbl) := val]> m).
Proof.
  intros Hl Hkeys Hnone. unfold info_set, info_labels, info_write, bind.
  rewrite Hl. simpl. rewrite Hkeys, Hnone, andb_false_r.
  unfold modify, with_infos. simpl. by rewrite insert_ensure.
Qed.

Lemma check_stream_status_try_writes self r now m :
  sat (check_stream_status_try self r now) m (fun o m1 =>
    match o with
    | Return (is_live, viewers, title) =>
        (exists data, r = Json data /\
                      read_status data = Some (is_live, viewers, title)) /\
        gauges m1 !! (stream_status, status_series self)
        = Py.float_of_int (if is_live then 1 else 0) /\
        gauges m1 !! (stream_viewers, base_series self)
        = Py.float_of_int viewers /\
        infos m1 !! (video_info, video_info_series self)
        = Some [("title", title);
                ("is_live", Py.VStr (Py.str_of_bool is_live));
                ("last_updated", Py.VStr now)]%string
    | Raise => True
    end).
Proof.
  unfold check_stream_status_try. wp.
  destruct r as [|data]; cbn [received]; cbn beta iota; wp; [done|].
  destruct (read_status data) as [[[is_live viewers] title]|] eqn:Hread;
    cbn beta iota; wp; try done.
  destruct is_live; cbn [negb]; wp.
  all: split; [by exists data|].
  all: repeat match goal with
              | H : to_float (NInt _) = Some _ |- _ =>
                  cbn [to_float] in H; rewrite H; clear H
              end.
  all: by fields_simpl.
Qed.

Lemma read_status_no_items data :
  has_items data = Some false -> read_status data = Some (false, 0, Py.VStr "").
Proof. intros H. unfold read_status. by rewrite H. Qed.

(** What decides whether the [try] block of [check_stream_status] fails. *)
Lemma check_stream_status_try_outcome self r now m :
  fst (check_stream_status_try self r now m) =
    match received r ≫= read_status with
    | Some (is_live, viewers, title) =>
        if (info_rejects_none && is_none title)
           || bool_decide (Py.float_of_int viewers = None)
        then Raise
        else Return (is_live, viewers, title)
    | None => Raise
    end.
Proof.
  match goal with
  | |- _ = ?rhs =>
      change (sat (check_stream_status_try self r now) m (fun o _ => o = rhs))
  end.
  unfold check_stream_status_try. wp.
  destruct r as [|data]; cbn [received mbind option_bind]; cbn beta iota; wp;
    [done|].
  destruct (read_status data) as [[[is_live viewers] title]|];
    cbn beta iota; [|by wp].
  apply sat_bind. unfold info_set. apply sat_bind.
  eapply sat_info_labels; [reflexivity|]. cbn beta iota.
  unfold info_write. cbn [existsb fst snd info_labelnames String.eqb Ascii.eqb
                          Bool.eqb orb is_none].
  rewrite !orb_false_r.
  destruct (info_rejects_none && is_none title) eqn:Hinfo; cbn [orb];
    [by apply sat_raise|].
  apply sat_modify. cbn beta iota. wp.
  - destruct is_live; cbn [negb]; wp;
      by rewrite bool_decide_eq_false_2 by (cbn [to_float] in *; congruence).
  - cbn [to_float] in *. by rewrite bool_decide_eq_true_2.
  - by destruct is_live.
Qed.

(** X1. The [try] block of [check_stream_status] fails exactly when the
    request or the decoding raised, the reading of the reply raised, the
    title is [None] and the client library refuses it, or the viewer count
    is too large for a float; otherwise the call returns what it read in the
    reply. *)
Theorem check_stream_status_result self r now m :
  fst (check_stream_status self r now m) =
    Return
      match received r ≫= read_status with
      | Some (is_live, viewers, title) =>
          if (info_rejects_none && is_none title)
             || bool_decide (Py.float_of_int viewers = None)
          then (false, 0, Py.VStr "")
          else (is_live, viewers, title)
      | None => (false, 0, Py.VStr "")
      end.
Proof.
  pose proof (check_stream_status_try_outcome self r now m) as Htry.
  unfold check_stream_status, try_except.
  destruct (check_stream_status_try self r now m) as [o m1].
  cbn [fst] in Htry. subst o.
  destruct (received r ≫= read_status) as [[[is_live viewers] title]|];
    [destruct (_ || _)|]; by rewrite ?check_stream_status_except_spec.
Qed.

(** X2. After a call of [check_stream_status] whose [try] block completes,
    the gauges and the record of the monitor hold what the call returns:
    [stream_status] is 1 when live and 0 otherwise, [stream_viewers] is the
    viewer count (0 included), and [video_info] holds the title, the
    liveness as ['True'] or ['False'] and the time of the call. *)
Theorem check_stream_status_success self r now m is_live viewers title :
  returned (check_stream_status_try self r now) m (is_live, viewers, title) ->
  (exists data, r = Json data /\
                read_status data = Some (is_live, viewers, title)) /\
  gauge_value (snd (check_stream_status self r now m))
    stream_status (status_series self)
  = Py.float_of_int (if is_live then 1 else 0) /\
  gauge_value (snd (check_stream_status self r now m))
    stream_viewers (base_series self)
  = Py.float_of_int viewers /\
  infos (snd (check_stream_status self r now m))
    !! (video_info, video_info_series self)
  = Some [("title", title);
          ("is_live", Py.VStr (Py.str_of_bool is_live));
          ("last_updated", Py.VStr now)]%string.
Proof.
  intros Hret. unfold returned in Hret.
  pose proof (check_stream_status_try_writes self r now m) as H.
  unfold sat in H. unfold check_stream_status, try_except, gauge_value.
  destruct (check_stream_status_try self r now m) as [o m1].
  cbn [fst snd] in *. by subst o.
Qed.

(** X3. After every call of [check_stream_status], failed or not, the
    [stream_status] gauge of the monitor is 1 if the [try] block completed
    with a live result and 0 in every other case. *)
Theorem stream_status_reflects_liveness self r now m :
  gauge_value (snd (check_stream_status self r now m))
    stream_status (status_series self)
  = Py.float_of_int
      match fst (check_stream_status_try self r now m) with
      | Return (true, _, _) => 1
      | _ => 0
      end.
Proof.
  pose proof (check_stream_status_try_writes self r now m) as H.
  unfold sat in H. unfold check_stream_status, try_except, gauge_value.
  destruct (check_stream_status_try self r now m) as [[[[[] viewers] title]|] m1];
    cbn [fst snd] in *; try by destruct H as (_ & H & _).
  rewrite check_stream_status_except_spec. cbn [snd with_counters with_gauges gauges].
  by rewrite lookup_insert_eq.
Qed.

(** X4. A decoded reply without items (['items'] missing or empty, as in
    the body of an API error) is read as an offline stream: the call returns
    [(False, 0, "")], [stream_status] and [stream_viewers] are 0,
    [error_count] grows by 1 and [api_errors] does not change. *)
Theorem check_stream_status_no_items self data now m :
  has_items data = Some false ->
  fst (check_stream_status self (Json data) now m)
  = Return (false, 0, Py.VStr "") /\
  ~ failed (check_stream_status_try self (Json data) now) m /\
  gauge_value (snd (check_stream_status self (Json data) now m))
    stream_status (status_series self) = Some float_zero /\
  gauge_value (snd (check_stream_status self (Json data) now m))
    stream_viewers (base_series self) = Some float_zero /\
  counter_value (snd (check_stream_status self (Json data) now m))
    error_count (base_series self)
  = counter_value m error_count (base_series self) + 1 /\
  counter_value (snd (check_stream_status self (Json data) now m))
    api_errors (base_series self)
  = counter_value m api_errors (base_series self).
Proof.
  intros Hno. apply read_status_no_items in Hno.
  pose proof (check_stream_status_try_outcome self (Json data) now m) as Hout.
  cbn [received mbind option_bind] in Hout. rewrite Hno in Hout.
  cbn [is_none] in Hout. rewrite andb_false_r in Hout.
  rewrite bool_decide_eq_false_2 in Hout by done. cbn [orb] in Hout.
  pose proof (check_stream_status_try_writes self (Json data) now m) as Hw.
  pose proof (check_stream_status_counters self (Json data) now m) as Hc.
  unfold sat in Hw. cbn zeta in Hc. rewrite Hout in Hc, Hw.
  destruct Hw as (_ & Hs & Hv & _).
  unfold failed. rewrite Hout.
  unfold check_stream_status, try_except, gauge_value in *.
  destruct (check_stream_status_try self (Json data) now m) as [o m1].
  cbn [fst snd] in *. subst o. cbn [fst snd] in *.
  repeat split; try done.
  - unfold counter_value. rewrite Hc. by counters_simpl.
  - unfold counter_value. rewrite Hc. by counters_simpl.
Qed.

Lemma get_video_engagement_try_writes self r m :
  sat (get_video_engagement_try self r) m (fun o m1 =>
    match o with
    | Return (Some (views, likes, comments)) =>
        exists data stats favorites,
          r = Json data /\
          first_item data ≫= (fun item => Py.getitem item "statistics")
          = Some stats /\
          read_engagement stats = Some (views, likes, comments, favorites) /\
          gauges m1 !! (video_views, base_series self) = Py.float_of_int views /\
          gauges m1 !! (video_likes, base_series self) = Py.float_of_int likes /\
          gauges m1 !! (video_comments, base_series self)
          = Py.float_of_int comments /\
          gauges m1 !! (video_favorites, base_series self)
          = Py.float_of_int favorites
    | _ => True
    end).
Proof.
  unfold get_video_engagement_try. wp.
  destruct r as [|data]; cbn [received]; cbn beta iota; wp; [done|].
  destruct (has_items data) as [[]|]; cbn beta iota; wp; [|done|done].
  destruct (_ ≫= _) as [stats|] eqn:Hstats; cbn beta iota; wp; [|done].
  destruct (read_engagement stats) as [[[[views likes] comments] favorites]|]
    eqn:Hread; cbn beta iota; wp; try done.
  all: try (destruct (0 <? views); wp; try done).
  all: try (destruct (Py.int_truediv likes views); cbn beta iota; wp; try done).
  all: exists data, stats, favorites.
  all: repeat match goal with
              | H : to_float (NInt _) = Some _ |- _ =>
                  cbn [to_float] in H; rewrite H; clear H
              end.
  all: split; [done|split; [done|split; [done|]]]; by fields_simpl.
Qed.

Lemma get_video_engagement_try_Failed self m :
  failed (get_video_engagement_try self Failed) m.
Proof. done. Qed.

(** X5. When the [try] block of [get_video_engagement] raises, the call
    returns [(0, 0, 0)]; [api_errors] grows by exactly 1, and
    [error_count], [check_count] and the [engagement_rate] gauge of the
    monitor keep their values. A request that raises is such a failure. *)
Theorem get_video_engagement_failure self r m :
  failed (get_video_engagement_try self r) m ->
  fst (get_video_engagement self r m) = Return (Some (0, 0, 0)) /\
  counter_value (snd (get_video_engagement self r m))
    api_errors (base_series self)
  = counter_value m api_errors (base_series self) + 1 /\
  counter_value (snd (get_video_engagement self r m))
    error_count (base_series self)
  = counter_value m error_count (base_series self) /\
  counter_value (snd (get_video_engagement self r m))
    check_count (base_series self)
  = counter_value m check_count (base_series self) /\
  gauge_value (snd (get_video_engagement self r m))
    engagement_rate (base_series self)
  = gauge_value m engagement_rate (base_series self) /\
  failed (get_video_engagement_try self Failed) m.
Proof.
  intros Hfail.
  pose proof (get_video_engagement_counters self r m) as Hc.
  pose proof (get_video_engagement_rate_kept self r m Hfail) as Hrate.
  unfold failed in Hfail. rewrite Hfail in Hc.
  split; [|repeat split; try done].
  - unfold get_video_engagement, try_except.
    destruct (get_video_engagement_try self r m) as [o m1].
    cbn [fst] in Hfail. subst o. by rewrite get_video_engagement_except_spec.
  - unfold counter_value at 1. rewrite Hc. by counters_simpl.
  - unfold counter_value at 1. rewrite Hc. by counters_simpl.
  - unfold counter_value at 1. rewrite Hc. by counters_simpl.
Qed.

Lemma get_int_missing stats k z :
  Py.contains k stats = Some false ->
  Py.get stats k (Py.VInt 0) ≫= Py.int int_of_str = Some z ->
  z = 0.
Proof.
  destruct stats as [| | | | | |d]; try done. cbn [Py.contains Py.get].
  destruct (Py.dict_lookup k d); [done|].
  cbn [mbind option_bind Py.int]. by intros _ [= <-].
Qed.

Lemma read_engagement_inv stats views likes comments favorites :
  read_engagement stats = Some (views, likes, comments, favorites) ->
  Py.get stats "viewCount" (Py.VInt 0) ≫= Py.int int_of_str = Some views /\
  Py.get stats "likeCount" (Py.VInt 0) ≫= Py.int int_of_str = Some likes /\
  Py.get stats "commentCount" (Py.VInt 0) ≫= Py.int int_of_str = Some comments /\
  Py.get stats "favoriteCount" (Py.VInt 0) ≫= Py.int int_of_str = Some favorites.
Proof.
  unfold read_engagement.
  destruct (Py.get stats "viewCount" _ ≫= _) as [v|];
    cbn [mbind option_bind]; [|done].
  destruct (Py.get stats "likeCount" _ ≫= _) as [l|];
    cbn [mbind option_bind]; [|done].
  destruct (Py.get stats "commentCount" _ ≫= _) as [c|];
    cbn [mbind option_bind]; [|done].
  destruct (Py.get stats "favoriteCount" _ ≫= _) as [f|];
    cbn [mbind option_bind]; [|done].
  by intros [= -> -> -> ->].
Qed.

(** X6. After a call of [get_video_engagement] whose [try] block completes
    with counts, the reply held a ['statistics'] entry from which the four
    counts were read, and [video_views], [video_likes], [video_comments]
    and [video_favorites] hold them; a count missing from the statistics
    is 0. *)
Theorem get_video_engagement_success self r m views likes comments :
  returned (get_video_engagement_try self r) m (Some (views, likes, comments)) ->
  exists data stats favorites,
    r = Json data /\
    first_item data ≫= (fun item => Py.getitem item "statistics") = Some stats /\
    read_engagement stats = Some (views, likes, comments, favorites) /\
    gauge_value (snd (get_video_engagement self r m))
      video_views (base_series self) = Py.float_of_int views /\
    gauge_value (snd (get_video_engagement self r m))
      video_likes (base_series self) = Py.float_of_int likes /\
    gauge_value (snd (get_video_engagement self r m))
      video_comments (base_series self) = Py.float_of_int comments /\
    gauge_value (snd (get_video_engagement self r m))
      video_favorites (base_series self) = Py.float_of_int favorites /\
    (Py.contains "viewCount" stats = Some false -> views = 0) /\
    (Py.contains "likeCount" stats = Some false -> likes = 0) /\
    (Py.contains "commentCount" stats = Some false -> comments = 0) /\
    (Py.contains "favoriteCount" stats = Some false -> favorites = 0).
Proof.
  intros Hret. unfold returned in Hret.
  pose proof (get_video_engagement_try_writes self r m) as H.
  unfold sat in H. unfold get_video_engagement, try_except, gauge_value.
  destruct (get_video_engagement_try self r m) as [o m1].
  cbn [fst snd] in *. subst o.
  destruct H as (data & stats & favorites & Hr & Hstats & Hread & Hg).
  exists data, stats, favorites.
  split; [done|split; [done|split; [done|]]].
  destruct Hg as (? & ? & ? & ?).
  apply read_engagement_inv in Hread as (Hv & Hl & Hc & Hf).
  repeat split; try done; intros Hmissing; by eapply get_int_missing.
Qed.

(** X7. [get_video_engagement] reads the four counts before it writes any
    of them: when the first item has no ['statistics'] or one of the counts
    cannot be converted by [int], no gauge and no record is written; the
    call returns [(0, 0, 0)] and only [api_errors] grows, by 1. *)
Theorem get_video_engagement_unreadable self data m :
  has_items data = Some true ->
  (first_item data ≫= (fun item => Py.getitem item "statistics"))
    ≫= read_engagement = None ->
  get_video_engagement self (Json data) m
  = (Return (Some (0, 0, 0)),
     with_counters (bump api_errors (base_series self) 1) m).
Proof.
  intros Hhas Hread.
  unfold get_video_engagement, try_except, get_video_engagement_try, bind.
  cbn [received lift ret]. rewrite Hhas. cbn [lift ret].
  destruct (first_item data ≫= _) as [stats|]; cbn [mbind option_bind] in Hread;
    cbn [lift ret raise].
  - rewrite Hread. cbn [lift raise]. apply get_video_engagement_except_spec.
  - apply get_video_engagement_except_spec.
Qed.

(** X8. [get_video_engagement] never writes the [engagement_rate] gauge
    unless its [try] block completes with a positive view count: in every
    other case (failure, no items, zero or negative views) the gauge keeps
    its value. *)
Theorem engagement_rate_only_when_positive self r m :
  gauge_value (snd (get_video_engagement self r m))
    engagement_rate (base_series self)
  = gauge_value m engagement_rate (base_series self)
  \/ exists views likes comments,
       returned (get_video_engagement_try self r) m (Some (views, likes, comments))
       /\ 0 < views.
Proof.
  pose proof (get_video_engagement_try_spec self r m) as H.
  unfold sat in H. unfold get_video_engagement, try_except, gauge_value, returned.
  destruct (get_video_engagement_try self r m) as [[[[[views likes] comments]|]|] m1];
    cbn beta iota zeta delta [fst snd] in *; destruct H as (_ & _ & _ & H).
  - destruct (Z.ltb_spec 0 views); [right; by exists views, likes, comments|].
    by left.
  - left. by subst m1.
  - left. by rewrite get_video_engagement_except_spec.
Qed.

Lemma get_channel_info_try_writes self r now m :
  sat (get_channel_info_try self r now) m (fun o m1 =>
    match o with
    | Return (Some subscribers) =>
        gauges m1 !! (channel_subscribers, channel_series self)
        = Py.float_of_int subscribers
    | _ => True
    end).
Proof.
  unfold get_channel_info_try. wp.
  destruct (received r) as [data|]; cbn beta iota; wp; [|done].
  destruct (has_items data) as [[]|]; cbn beta iota; wp; [|done|done].
  destruct (first_item data) as [item|]; cbn beta iota; wp; [|done].
  destruct (Py.getitem item "statistics") as [stats|]; cbn beta iota; wp; [|done].
  destruct (Py.get item "snippet" _) as [snippet|]; cbn beta iota; wp; [|done].
  destruct (_ ≫= _) as [subscribers|]; cbn beta iota; wp; [|done|done].
  destruct (Py.get snippet "title" _) as [title|]; cbn beta iota; wp; [|done].
  destruct (_ ≫= _) as [description|]; cbn beta iota; wp; try done.
  match goal with
  | H : to_float (NInt _) = Some _ |- _ => cbn [to_float] in H; rewrite H
  end.
  by fields_simpl.
Qed.

(** X9. When the [try] block of [get_channel_info] raises, the call returns
    0; [api_errors] grows by exactly 1 and [error_count] and [check_count]
    keep their values. When it completes with a subscriber count, the call
    returns that count and the [channel_subscribers] gauge holds it. *)
Theorem get_channel_info_outcomes self r now m :
  (failed (get_channel_info_try self r now) m ->
   fst (get_channel_info self r now m) = Return (Some 0) /\
   counter_value (snd (get_channel_info self r now m))
     api_errors (base_series self)
   = counter_value m api_errors (base_series self) + 1 /\
   counter_value (snd (get_channel_info self r now m))
     error_count (base_series self)
   = counter_value m error_count (base_series self) /\
   counter_value (snd (get_channel_info self r now m))
     check_count (base_series self)
   = counter_value m check_count (base_series self)) /\
  (forall subscribers,
     returned (get_channel_info_try self r now) m (Some subscribers) ->
     fst (get_channel_info self r now m) = Return (Some subscribers) /\
     gauge_value (snd (get_channel_info self r now m))
       channel_subscribers (channel_series self)
     = Py.float_of_int subscribers /\
     counters (snd (get_channel_info self r now m)) = counters m).
Proof.
  pose proof (get_channel_info_counters self r now m) as Hc.
  pose proof (get_channel_info_try_writes self r now m) as Hw.
  unfold sat in Hw. unfold failed, returned.
  split.
  - intros Hfail. rewrite Hfail in Hc. split; [|repeat split].
    + unfold get_channel_info, try_except.
      destruct (get_channel_info_try self r now m) as [o m1].
      cbn [fst] in Hfail. subst o. by rewrite get_channel_info_except_spec.
    + unfold counter_value at 1. rewrite Hc. by counters_simpl.
    + unfold counter_value at 1. rewrite Hc. by counters_simpl.
    + unfold counter_value at 1. rewrite Hc. by counters_simpl.
  - intros subscribers Hret. rewrite Hret in Hc, Hw.
    unfold get_channel_info, try_except, gauge_value in *.
    destruct (get_channel_info_try self r now m) as [o m1].
    cbn [fst snd] in *. by subst o.
Qed.

Ltac frame_leaf :=
  unfold touches_only, own_gauges, own_counters, own_infos;
  cbn [fmap list_fmap monitor_series];
  repeat split; try done; intros k Hk;
  rewrite !not_elem_of_cons in Hk; destruct_and?;
  cbn [gauges counters infos registered_streams
       with_gauges with_counters with_infos with_registered];
  unfold bump;
  repeat first
    [ rewrite lookup_insert_ne by done
    | rewrite lookup_ensure_ne by done ];
  done.

Lemma polling_frames self r now m :
  touches_only self m (snd (check_stream_status self r now m)) /\
  touches_only self m (snd (get_video_engagement self r m)) /\
  touches_only self m (snd (get_channel_info self r now m)).
Proof.
  split; [|split].
  - change (sat (check_stream_status self r now) m
              (fun _ m' => touches_only self m m')).
    unfold check_stream_status, check_stream_status_try,
      check_stream_status_except. wp.
    destruct (received r) as [data|]; cbn beta iota; wp; try frame_leaf.
    destruct (read_status data) as [[[is_live viewers] title]|];
      cbn beta iota; wp; try frame_leaf.
    destruct is_live; cbn [negb]; wp; frame_leaf.
  - change (sat (get_video_engagement self r) m
              (fun _ m' => touches_only self m m')).
    unfold get_video_engagement, get_video_engagement_try,
      get_video_engagement_except. wp.
    destruct (received r) as [data|]; cbn beta iota; wp; try frame_leaf.
    destruct (has_items data) as [[]|]; cbn beta iota; wp; try frame_leaf.
    destruct (_ ≫= _) as [stats|]; cbn beta iota; wp; try frame_leaf.
    destruct (read_engagement stats) as [[[[views likes] comments] favorites]|];
      cbn beta iota; wp; try frame_leaf.
    destruct (0 <? views); wp; try frame_leaf.
    destruct (Py.int_truediv likes views); cbn beta iota; wp; frame_leaf.
  - change (sat (get_channel_info self r now) m
              (fun _ m' => touches_only self m m')).
    unfold get_channel_info, get_channel_info_try, get_channel_info_except. wp.
    destruct (received r) as [data|]; cbn beta iota; wp; try frame_leaf.
    destruct (has_items data) as [[]|]; cbn beta iota; wp; try frame_leaf.
    destruct (first_item data) as [item|]; cbn beta iota; wp; try frame_leaf.
    destruct (Py.getitem item "statistics") as [stats|]; cbn beta iota; wp;
      try frame_leaf.
    destruct (Py.get item "snippet" _) as [snippet|]; cbn beta iota; wp;
      try frame_leaf.
    destruct (_ ≫= _) as [subscribers|]; cbn beta iota; wp; try frame_leaf.
    destruct (Py.get snippet "title" _) as [title|]; cbn beta iota; wp;
      try frame_leaf.
    destruct (_ ≫= _) as [description|]; cbn beta iota; wp; frame_leaf.
Qed.

(** X10. Whatever the replies, a call of [check_stream_status],
    [get_video_engagement] or [get_channel_info] on a monitor changes no
    gauge, counter or record outside the series named by the labels of that
    monitor, and never changes [registered_streams]: the series of any
    other entity are left as they were. *)
Theorem polling_touches_own_series_only self r now m :
  touches_only self m (snd (check_stream_status self r now m)) /\
  touches_only self m (snd (get_video_engagement self r m)) /\
  touches_only self m (snd (get_channel_info self r now m)).
Proof. apply polling_frames. Qed.

Lemma entity_series_monitor g self :
  entity_series g (channel_id self) (video_id self) (stream_name self)
    (channel_name self) (environment self) = monitor_series g self.
Proof. by destruct g. Qed.

Lemma init_after_register self m :
  init self m =
    (Return tt,
     with_infos
       <[(channel_info, channel_info_series self) :=
           [("stream_name", Py.VStr (stream_name self));
            ("environment", Py.VStr (environment self))]%string]>
       (snd (register_stream (channel_id self) (video_id self) (stream_name self)
               (channel_name self) (environment self) m))).
Proof.
  destruct (register_stream_effect (channel_id self) (video_id self)
              (stream_name self) (channel_name self) (environment self) m)
    as (Hret & _).
  unfold init, bind.
  destruct (register_stream _ _ _ _ _ m) as [o m1]. cbn [fst snd] in *. subst o.
  by apply info_set_accepted.
Qed.

(** On the object it is run on, the tail of the constructor returns,
    registers the key and writes the [channel_info] record; for a new key
    the series of the monitor exist with value 0. *)
Lemma init_prepares self m :
  fst (init self m) = Return tt /\
  stream_key (channel_id self) (video_id self) (stream_name self)
    ∈ registered_streams (snd (init self m)) /\
  infos (snd (init self m)) !! (channel_info, channel_info_series self)
  = Some [("stream_name", Py.VStr (stream_name self));
          ("environment", Py.VStr (environment self))]%string /\
  (stream_key (channel_id self) (video_id self) (stream_name self)
     ∉ registered_streams m ->
   consistent m ->
   (forall g, gauge_value (snd (init self m)) g (monitor_series g self)
              = Some float_zero) /\
   (forall cn, counters (snd (init self m)) !! (cn, base_series self) = Some 0)).
Proof.
  rewrite init_after_register. cbn [fst snd].
  destruct (register_stream_effect (channel_id self) (video_id self)
              (stream_name self) (channel_name self) (environment self) m)
    as (_ & Hreg & _ & _).
  split; [done|split; [|split]].
  - cbn [registered_streams with_infos]. rewrite Hreg.
    apply elem_of_union_r. by apply elem_of_singleton.
  - cbn [infos with_infos]. by rewrite lookup_insert_eq.
  - intros Hnew Hcons.
    pose proof (register_stream_fresh (channel_id self) (video_id self)
                  (stream_name self) (channel_name self) (environment self)
                  m Hnew) as H.
    unfold sat in H. destruct H as (_ & Hg & Hc & _).
    split.
    + intros g. unfold gauge_value. cbn [gauges with_infos].
      rewrite <- entity_series_monitor. apply Hg.
    + intros cn. cbn [counters with_infos]. rewrite Hc.
      apply shown_lookup_new.
      destruct (counters m !! (cn, _)) eqn:E; [|done].
      destruct Hnew. by eapply Hcons.
Qed.

(** X11. Constructing a monitor with a metrics object always returns: the
    monitor holds that object, in which the key of the stream is now
    registered and [channel_info] records the stream name and the
    environment; when the key was new (in a registry where every counter
    belongs to a registered key), every gauge and counter series that the
    polling methods will write exists with value 0. Constructing it without
    a metrics object raises when a [YouTubeMetrics] was constructed before
    in the process, and the monitor gets no object; in a process without
    one it returns with a new object prepared in the same way. *)
Theorem YouTubeMonitor_init_outcomes self :
  (forall m declared,
     YouTubeMonitor_init self (Some m) declared
     = (Return tt, Some (snd (init self m))) /\
     stream_key (channel_id self) (video_id self) (stream_name self)
       ∈ registered_streams (snd (init self m)) /\
     infos (snd (init self m)) !! (channel_info, channel_info_series self)
     = Some [("stream_name", Py.VStr (stream_name self));
             ("environment", Py.VStr (environment self))]%string /\
     (stream_key (channel_id self) (video_id self) (stream_name self)
        ∉ registered_streams m ->
      consistent m ->
      (forall g, gauge_value (snd (init self m)) g (monitor_series g self)
                 = Some float_zero) /\
      (forall cn, counters (snd (init self m)) !! (cn, base_series self)
                  = Some 0))) /\
  YouTubeMonitor_init self None true = (Raise, None) /\
  (exists m',
     YouTubeMonitor_init self None false = (Return tt, Some m') /\
     stream_key (channel_id self) (video_id self) (stream_name self)
       ∈ registered_streams m' /\
     (forall g, gauge_value m' g (monitor_series g self) = Some float_zero) /\
     (forall cn, counters m' !! (cn, base_series self) = Some 0)).
Proof.
  split; [|split].
  - intros m declared.
    destruct (init_prepares self m) as (Hret & Hkey & Hinfo & Hfresh).
    unfold YouTubeMonitor_init. by rewrite Hret.
  - done.
  - exists (snd (init self new_metrics)).
    destruct (init_prepares self new_metrics) as (Hret & Hkey & _ & Hfresh).
    unfold YouTubeMonitor_init, YouTubeMetrics_init. rewrite Hret.
    split; [done|split; [done|]].
    apply Hfresh.
    + cbn [new_metrics registered_streams]. apply not_elem_of_empty.
    + intros cn c s v n [x Hx]. by cbv [new_metrics counters] in Hx.
Qed.

Lemma shown_value lbl cs k :
  default 0 (shown lbl cs !! k) = default 0 (cs !! k).
Proof. unfold shown. rewrite !bump_value. repeat case_decide; lia. Qed.

(** X12. Registration never changes the value of a counter: on its first
    call for a key [register_stream] adds 0 to the three counters of the
    entity, so a series that already counts keeps its count, and the same
    holds for the construction of a monitor. *)
Theorem registration_keeps_counts c v s n env self m cn lbl :
  counter_value (snd (register_stream c v s n env m)) cn lbl
  = counter_value m cn lbl /\
  counter_value (snd (init self m)) cn lbl = counter_value m cn lbl.
Proof.
  unfold counter_value. split.
  - destruct (register_stream_effect c v s n env m) as (_ & _ & _ & ->).
    case_bool_decide; [done|apply shown_value].
  - destruct (init_effect self m) as (_ & ->).
    case_bool_decide; [done|apply shown_value].
Qed.

Lemma string_app_assoc (s1 s2 s3 : string) :
  ((s1 ++ s2) ++ s3)%string = (s1 ++ (s2 ++ s3))%string.
Proof.
  induction s1 as [|a s1 IH]; [done|].
  change (String a ((s1 ++ s2) ++ s3) = String a (s1 ++ (s2 ++ s3)))%string.
  by rewrite IH.
Qed.

(** X13. The key joins the three identifiers with underscores, so two
    different entities can have one key: a [channel_id] [c_x] with
    [video_id] [v] and a [channel_id] [c] with [video_id] [x_v]. Once the
    first is registered, registering the second returns at once and
    initialises none of its series. *)
Theorem stream_key_clash c x v s n env n' env' m :
  stream_key (c ++ "_" ++ x) v s = stream_key c (x ++ "_" ++ v) s /\
  register_stream c (x ++ "_" ++ v) s n' env'
    (snd (register_stream (c ++ "_" ++ x) v s n env m))
  = (Return tt, snd (register_stream (c ++ "_" ++ x) v s n env m)).
Proof.
  assert (stream_key (c ++ "_" ++ x) v s = stream_key c (x ++ "_" ++ v) s) as Hkey.
  { unfold stream_key. by rewrite !string_app_assoc. }
  split; [done|]. apply register_stream_registered. rewrite <- Hkey.
  destruct (register_stream_effect (c ++ "_" ++ x) v s n env m) as (_ & -> & _).
  apply elem_of_union_r. by apply elem_of_singleton.
Qed.

Lemma touches_only_refl self m : touches_only self m m.
Proof. by repeat split. Qed.

Lemma touches_only_trans self m1 m2 m3 :
  touches_only self m1 m2 -> touches_only self m2 m3 -> touches_only self m1 m3.
Proof.
  intros (Hg & Hc & Hi & Hr) (Hg' & Hc' & Hi' & Hr').
  repeat split; [intros k Hk..|congruence].
  - by rewrite Hg', Hg.
  - by rewrite Hc', Hc.
  - by rewrite Hi', Hi.
Qed.

Lemma check_count_after_check self r now m :
  counter_value (snd (check_stream_status self r now m))
    check_count (base_series self)
  = counter_value m check_count (base_series self) + 1.
Proof.
  unfold counter_value at 1. rewrite check_stream_status_counters.
  destruct (fst (check_stream_status_try self r now m)) as [[[[] ?] ?]|];
    by counters_simpl.
Qed.

Lemma check_count_after_engagement self r m :
  counter_value (snd (get_video_engagement self r m))
    check_count (base_series self)
  = counter_value m check_count (base_series self).
Proof.
  unfold counter_value at 1. rewrite get_video_engagement_counters.
  destruct (fst (get_video_engagement_try self r m)); by counters_simpl.
Qed.

Lemma check_count_after_channel self r now m :
  counter_value (snd (get_channel_info self r now m))
    check_count (base_series self)
  = counter_value m check_count (base_series self).
Proof.
  unfold counter_value at 1. rewrite get_channel_info_counters.
  destruct (fst (get_channel_info_try self r now m)); by counters_simpl.
Qed.

Lemma sat_check_stream_status self r now m :
  sat (check_stream_status self r now) m (fun o m' =>
    (exists res, o = Return res) /\
    touches_only self m m' /\
    counter_value m' check_count (base_series self)
    = counter_value m check_count (base_series self) + 1).
Proof.
  unfold sat. split; [apply check_stream_status_returns|].
  split; [apply (polling_frames self r now m)|apply check_count_after_check].
Qed.

Lemma sat_get_video_engagement self r m :
  sat (get_video_engagement self r) m (fun o m' =>
    (exists res, o = Return res) /\
    touches_only self m m' /\
    counter_value m' check_count (base_series self)
    = counter_value m check_count (base_series self)).
Proof.
  unfold sat. split; [apply get_video_engagement_returns|].
  split; [apply (polling_frames self r "" m)|apply check_count_after_engagement].
Qed.

Lemma sat_get_channel_info self r now m :
  sat (get_channel_info self r now) m (fun o m' =>
    (exists res, o = Return res) /\
    touches_only self m m' /\
    counter_value m' check_count (base_series self)
    = counter_value m check_count (base_series self)).
Proof.
  unfold sat. split; [apply get_channel_info_returns|].
  split; [apply (polling_frames self r now m)|apply check_count_after_channel].
Qed.

Lemma monitor_iteration_effect self env count log m :
  sat (monitor_iteration self env (count, log)) m (fun _ m' =>
    touches_only self m m' /\
    counter_value m' check_count (base_series self)
    = counter_value m check_count (base_series self) + 1).
Proof.
  unfold monitor_iteration. apply sat_bind.
  eapply sat_mono; [apply sat_check_stream_status|].
  intros o m1 ([res ->] & Hf1 & Hc1). cbn beta iota.
  apply sat_bind.
  assert (forall log2 m2,
    touches_only self m m2 ->
    counter_value m2 check_count (base_series self)
    = counter_value m check_count (base_series self) + 1 ->
    sat (let* log3 :=
           (if (count mod channel_interval =? 0)%nat then
              let* _ := get_channel_info self (channel_reply env count)
                          (clock env count) in
              ret (log2 ++ [(count, OpGetChannelInfo)])
            else ret log2) in
         ret ((count + 1)%nat, log3)) m2
      (fun _ m' =>
         touches_only self m m' /\
         counter_value m' check_count (base_series self)
         = counter_value m check_count (base_series self) + 1)) as Hrest.
  { intros log2 m2 Hf2 Hc2. apply sat_bind.
    destruct (count mod channel_interval =? 0)%nat.
    - apply sat_bind. eapply sat_mono; [apply sat_get_channel_info|].
      intros o m3 ([res3 ->] & Hf3 & Hc3). cbn beta iota. wp.
      split; [by eapply touches_only_trans|lia].
    - by wp. }
  destruct (count mod engagement_interval =? 0)%nat.
  - apply sat_bind. eapply sat_mono; [apply sat_get_video_engagement|].
    intros o m2 ([res2 ->] & Hf2 & Hc2). cbn beta iota.
    apply sat_ret. cbn beta iota.
    apply Hrest; [by eapply touches_only_trans|lia].
  - apply sat_ret. cbn beta iota. by apply Hrest.
Qed.

Lemma monitor_passes_effect self env n count log m :
  sat (monitor_passes self env n (count, log)) m (fun _ m' =>
    touches_only self m m' /\
    counter_value m' check_count (base_series self)
    = counter_value m check_count (base_series self) + Z.of_nat n).
Proof.
  revert count log m. induction n as [|n IH]; intros count log m.
  - cbn [monitor_passes]. wp. split; [apply touches_only_refl|lia].
  - cbn [monitor_passes]. unfold sat, bind.
    pose proof (monitor_iteration_calls self env count log m) as Hcalls.
    pose proof (monitor_iteration_effect self env count log m) as [Hf1 Hc1].
    destruct (monitor_iteration self env (count, log) m) as [o m1].
    cbn [fst snd] in *. subst o.
    destruct (IH (S count) (log ++ scheduled count) m1) as [Hf2 Hc2].
    split; [by eapply touches_only_trans|lia].
Qed.

(** X14. After the first [n] passes of [monitor_loop], whatever the
    replies, the [check_count] series of the monitor has grown by exactly
    [n], and nothing has changed outside the series of the monitor:
    [registered_streams] and the series of every other entity are as they
    were. *)
Theorem monitor_loop_heartbeat self env n m :
  counter_value (snd (monitor_loop self env n m)) check_count (base_series self)
  = counter_value m check_count (base_series self) + Z.of_nat n /\
  touches_only self m (snd (monitor_loop self env n m)).
Proof.
  unfold monitor_loop.
  by destruct (monitor_passes_effect self env n O [] m) as [Hf Hc].
Qed.

(** X15. [run_monitor] with a configuration that lacks one of
    ['channel_id'], ['video_id'], ['api_key'], ['name'] and ['channel_name']
    raises before it registers anything; a missing ['environment'] is
    ['Production']. With a complete configuration it returns after the
    first [n] passes with the registry that the constructor and then the
    calls of the schedule produce, made in order on the replies of their
    passes; the key of the stream is registered and the monitor's
    [check_count] has grown by exactly [n]. *)
Theorem run_monitor_effect stream_config env n m :
  (config_monitor stream_config = None ->
   run_monitor stream_config env n m = (Raise, m)) /\
  (forall self,
     config_monitor stream_config = Some self ->
     (kw_lookup "environment" stream_config = None ->
      environment self = "Production"%string) /\
     run_monitor stream_config env n m
     = (Return (n, flat_map scheduled (seq 0 n)),
        perform_all self env (flat_map scheduled (seq 0 n)) (snd (init self m))) /\
     stream_key (channel_id self) (video_id self) (stream_name self)
       ∈ registered_streams (snd (run_monitor stream_config env n m)) /\
     counter_value (snd (run_monitor stream_config env n m))
       check_count (base_series self)
     = counter_value m check_count (base_series self) + Z.of_nat n).
Proof.
  split.
  - intros Hnone. unfold run_monitor, bind. by rewrite Hnone.
  - intros self Hself. split.
    + intros Henv. unfold config_monitor in Hself. rewrite Henv in Hself.
      repeat match type of Hself with
             | context [kw_lookup ?k stream_config] =>
                 destruct (kw_lookup k stream_config); cbn [mbind option_bind] in Hself;
                 [|done]
             end.
      by simplify_eq.
    + unfold run_monitor, bind. rewrite Hself. cbn [lift ret].
      rewrite init_after_register. cbn [snd].
      set (m1 := with_infos _ _).
      assert (stream_key (channel_id self) (video_id self) (stream_name self)
                ∈ registered_streams m1) as Hin.
      { subst m1. cbn [registered_streams with_infos].
        destruct (register_stream_effect (channel_id self) (video_id self)
                    (stream_name self) (channel_name self) (environment self) m)
          as (_ & -> & _).
        apply elem_of_union_r. by apply elem_of_singleton. }
      assert (counter_value m1 check_count (base_series self)
              = counter_value m check_count (base_series self)) as Hsame.
      { subst m1. unfold counter_value. cbn [counters with_infos].
        destruct (register_stream_effect (channel_id self) (video_id self)
                    (stream_name self) (channel_name self) (environment self) m)
          as (_ & _ & _ & ->).
        case_bool_decide; [done|apply shown_value]. }
      unfold monitor_loop.
      pose proof (monitor_passes_calls self env n O [] m1) as Hcalls.
      pose proof (monitor_passes_state self env n O [] m1) as Hstate.
      destruct (monitor_passes_effect self env n O [] m1) as [(_ & _ & _ & Hr) Hc].
      destruct (monitor_passes self env n (O, []) m1) as [o m2].
      cbn [fst snd] in *. subst o m2.
      split; [done|split].
      * by rewrite Hr.
      * rewrite Hc. lia.
Qed.

(** X16. In a process started from an empty registry, the value of a
    [check_count] series is the number of calls of [check_stream_status]
    made so far by the monitors that carry its labels, whatever else
    happened in between. *)
Theorem check_count_is_number_of_calls es p lbl :
  exec_all es start = Some p ->
  counter_value (metrics p) check_count lbl = Z.of_nat (checks_of lbl es).
Proof.
  intros Hrun. by rewrite (check_count_counts_calls es start p lbl Hrun).
Qed.

(** X17. A key that is registered stays registered: along every history
    [registered_streams] only grows. *)
Theorem registered_streams_only_grows es p p' :
  exec_all es p = Some p' ->
  registered_streams (metrics p) ⊆ registered_streams (metrics p').
Proof. intros Hrun k Hk. by eapply exec_all_registered. Qed.

(** X18. In every state the process can reach, each counter series that
    exists carries the labels of a registered key, and the key of every
    constructed monitor is registered. *)
Theorem reachable_invariant p : reachable p -> invariant p.
Proof.
  intros [es Hrun]. eapply (exec_all_invariant es start p); [|done].
  split.
  - intros cn c s v n [x Hx]. by cbv [start metrics new_metrics counters] in Hx.
  - intros w Hin. by apply elem_of_nil in Hin.
Qed.

Lemma lookup_ensure `{Countable K} {V} (k k' : K) (v0 : V) (s : gmap K V) :
  ensure k v0 s !! k'
  = match s !! k' with
    | Some x => Some x
    | None => if decide (k = k') then Some v0 else None
    end.
Proof.
  destruct (decide (k = k')) as [->|Hne].
  - rewrite lookup_ensure_eq. by destruct (s !! k').
  - rewrite lookup_ensure_ne by done. by destruct (s !! k').
Qed.

Ltac status_leaf :=
  try done;
  let lbl := fresh "lbl" in
  let f := fresh "f" in
  let Hf := fresh "Hf" in
  intros lbl f Hf;
  cbn [gauges counters infos registered_streams
       with_gauges with_counters with_infos with_registered] in Hf;
  repeat first
    [ rewrite lookup_insert_ne in Hf by discriminate
    | rewrite lookup_ensure_ne in Hf by discriminate ];
  repeat first
    [ rewrite lookup_insert in Hf
    | rewrite lookup_ensure in Hf ];
  repeat match goal with
         | H : to_float (NInt _) = Some _ |- _ => cbn [to_float] in H
         | H : context [decide ?P] |- _ => destruct (decide P)
         | H : context [match gauges ?m !! ?k with _ => _ end] |- _ =>
             destruct (gauges m !! k) eqn:?
         end;
  simplify_eq;
  eauto.

Lemma register_stream_status_binary c v s n env m :
  status_binary m -> status_binary (snd (register_stream c v s n env m)).
Proof.
  intros Hm.
  change (sat (register_stream c v s n env) m (fun _ m' => status_binary m')).
  unfold register_stream, initialize_counters. wp.
  destruct (bool_decide _); wp; status_leaf.
Qed.

Lemma init_status_binary self m :
  status_binary m -> status_binary (snd (init self m)).
Proof.
  intros Hm. rewrite init_after_register. cbn [snd].
  intros lbl f Hf. cbn [gauges with_infos] in Hf.
  by eapply register_stream_status_binary.
Qed.

Lemma check_stream_status_status_binary self r now m :
  status_binary m -> status_binary (snd (check_stream_status self r now m)).
Proof.
  intros Hm.
  change (sat (check_stream_status self r now) m (fun _ m' => status_binary m')).
  unfold check_stream_status, check_stream_status_try,
    check_stream_status_except. wp.
  destruct (received r) as [data|]; cbn beta iota; wp; try status_leaf.
  destruct (read_status data) as [[[is_live viewers] title]|];
    cbn beta iota; wp; try status_leaf.
  all: destruct is_live; cbn [negb]; wp; status_leaf.
Qed.

Lemma get_video_engagement_status_binary self r m :
  status_binary m -> status_binary (snd (get_video_engagement self r m)).
Proof.
  intros Hm.
  change (sat (get_video_engagement self r) m (fun _ m' => status_binary m')).
  unfold get_video_engagement, get_video_engagement_try,
    get_video_engagement_except. wp.
  destruct (received r) as [data|]; cbn beta iota; wp; try status_leaf.
  destruct (has_items data) as [[]|]; cbn beta iota; wp; try status_leaf.
  destruct (_ ≫= _) as [stats|]; cbn beta iota; wp; try status_leaf.
  destruct (read_engagement stats) as [[[[views likes] comments] favorites]|];
    cbn beta iota; wp; try status_leaf.
  destruct (0 <? views); wp; try status_leaf.
  destruct (Py.int_truediv likes views); cbn beta iota; wp; status_leaf.
Qed.

Lemma get_channel_info_status_binary self r now m :
  status_binary m -> status_binary (snd (get_channel_info self r now m)).
Proof.
  intros Hm.
  change (sat (get_channel_info self r now) m (fun _ m' => status_binary m')).
  unfold get_channel_info, get_channel_info_try, get_channel_info_except. wp.
  destruct (received r) as [data|]; cbn beta iota; wp; try status_leaf.
  destruct (has_items data) as [[]|]; cbn beta iota; wp; try status_leaf.
  destruct (first_item data) as [item|]; cbn beta iota; wp; try status_leaf.
  destruct (Py.getitem item "statistics") as [stats|]; cbn beta iota; wp;
    try status_leaf.
  destruct (Py.get item "snippet" _) as [snippet|]; cbn beta iota; wp;
    try status_leaf.
  destruct (_ ≫= _) as [subscribers|]; cbn beta iota; wp; try status_leaf.
  destruct (Py.get snippet "title" _) as [title|]; cbn beta iota; wp;
    try status_leaf.
  destruct (_ ≫= _) as [description|]; cbn beta iota; wp; status_leaf.
Qed.

Lemma exec_status_binary e p p' :
  status_binary (metrics p) -> exec e p = Some p' -> status_binary (metrics p').
Proof.
  intros Hp. destruct e; simpl; try destruct (constructed self p); intros ?;
    simplify_eq; simpl;
    auto using register_stream_status_binary, init_status_binary,
      check_stream_status_status_binary, get_video_engagement_status_binary,
      get_channel_info_status_binary.
Qed.

(** X19. In every state the process can reach, every series of the
    [stream_status] gauge holds 0 or 1: registration and a failed check
    write 0, a completed check writes 1 or 0, and nothing else writes the
    gauge. *)
Theorem reachable_status_binary p : reachable p -> status_binary (metrics p).
Proof.
  intros [es Hrun].
  assert (forall q, status_binary (metrics q) ->
                    exec_all es q = Some p -> status_binary (metrics p)) as Hall.
  { clear Hrun. induction es as [|e es IH]; intros q Hq Hq'; simpl in Hq'.
    - by simplify_eq.
    - destruct (exec e q) as [q1|] eqn:He; [|done].
      apply (IH q1); [by eapply exec_status_binary|done]. }
  apply (Hall start); [|done].
  intros lbl f Hf. by cbv [start metrics new_metrics gauges] in Hf.
Qed.

End Program.

(** ** The model at work: the streams of [main] and some replies *)

Notation "'registered1'" := (snd (init true stream1 new_metrics)).

Notation "'watched1'" :=
  (snd (get_video_engagement Py.decimal stream1 statistics_reply registered1)).

Example stream1_registered :
  fst (init true stream1 new_metrics) = Return tt /\
  elements (registered_streams registered1)
  = ["XXXXXXXXXXXXXXXXXXXXXXXXXXX_XXXXXXXXXXX_CHANNEL-1"%string].
Proof. by vm_compute. Qed.

Example live_reply_read :
  fst (check_stream_status Py.decimal true stream1 live_reply clock1 registered1)
  = Return (true, 42, Py.VStr "Morning show").
Proof. by vm_compute. Qed.

Lemma check_stream_status_failure_witness :
  failed (check_stream_status_try Py.decimal true stream1 broken_viewers_reply clock1)
    registered1 /\
  fst (check_stream_status Py.decimal true stream1 broken_viewers_reply clock1
         registered1) = Return (false, 0, Py.VStr "") /\
  gauge_value (snd (check_stream_status Py.decimal true stream1
                      broken_viewers_reply clock1 registered1))
    stream_status (status_series stream1) = Some float_zero /\
  counter_value (snd (check_stream_status Py.decimal true stream1
                        broken_viewers_reply clock1 registered1))
    error_count (base_series stream1)
  = counter_value registered1 error_count (base_series stream1) + 1 /\
  counter_value (snd (check_stream_status Py.decimal true stream1
                        broken_viewers_reply clock1 registered1))
    api_errors (base_series stream1)
  = counter_value registered1 api_errors (base_series stream1) + 1 /\
  counter_value (snd (check_stream_status Py.decimal true stream1
                        broken_viewers_reply clock1 registered1))
    check_count (base_series stream1)
  = counter_value registered1 check_count (base_series stream1) + 1.
Proof.
  split; [by vm_compute|].
  apply (check_stream_status_failure Py.decimal true stream1
           broken_viewers_reply clock1 registered1).
  by vm_compute.
Defined.

Lemma check_stream_status_offline_witness :
  returned (check_stream_status_try Py.decimal true stream1 offline_reply clock1)
    registered1 (false, 0, Py.VStr "Replay") /\
  fst (check_stream_status Py.decimal true stream1 offline_reply clock1 registered1)
  = Return (false, 0, Py.VStr "Replay") /\
  counter_value (snd (check_stream_status Py.decimal true stream1 offline_reply
                        clock1 registered1))
    error_count (base_series stream1)
  = counter_value registered1 error_count (base_series stream1) + 1 /\
  counter_value (snd (check_stream_status Py.decimal true stream1 offline_reply
                        clock1 registered1))
    api_errors (base_series stream1)
  = counter_value registered1 api_errors (base_series stream1).
Proof.
  split; [by vm_compute|].
  apply (check_stream_status_offline Py.decimal true stream1 offline_reply clock1
           registered1 false 0 (Py.VStr "Replay")).
  by vm_compute.
Defined.

Lemma engagement_rate_guard_witness :
  returned (get_video_engagement_try Py.decimal stream1 statistics_reply)
    registered1 (Some (200, 10, 3)) /\
  gauge_value watched1 engagement_rate (base_series stream1) = Py.float_of_int 5.
Proof.
  split; [by vm_compute|].
  by apply (engagement_rate_guard Py.decimal stream1 statistics_reply registered1
              200 10 3).
Defined.

Lemma register_stream_idempotent_witness :
  (stream_key (channel_id stream2) (video_id stream2) (stream_name stream2)
     ∉ registered_streams watched1) /\
  consistent watched1 /\
  fst (register_stream (channel_id stream2) (video_id stream2) (stream_name stream2)
         (channel_name stream2) (environment stream2) watched1) = Return tt /\
  register_stream (channel_id stream2) (video_id stream2) (stream_name stream2)
    "TEST_Backup_renamed" "Test"
    (snd (register_stream (channel_id stream2) (video_id stream2)
            (stream_name stream2) (channel_name stream2) (environment stream2)
            watched1))
  = (Return tt,
     snd (register_stream (channel_id stream2) (video_id stream2)
            (stream_name stream2) (channel_name stream2) (environment stream2)
            watched1)).
Proof.
  assert (stream_key (channel_id stream2) (video_id stream2) (stream_name stream2)
            ∉ registered_streams watched1) as Hnew.
  { apply (bool_decide_eq_false_1 _). by vm_compute. }
  assert (consistent watched1) as Hcons.
  { apply (reachable_consistent Py.decimal true
             {| metrics := watched1; monitors := [stream1] |}).
    exists [Construct stream1; GetVideoEngagement stream1 statistics_reply].
    reflexivity. }
  split; [done|split; [done|]].
  destruct (register_stream_idempotent Py.decimal true (channel_id stream2) (video_id stream2)
              (stream_name stream2) (channel_name stream2) (environment stream2)
              watched1 Hnew Hcons) as (Hret & _ & _ & _ & Hagain & _).
  split; [exact Hret|apply Hagain].
Defined.

Lemma get_video_engagement_no_items_witness :
  has_items no_items = Some false /\
  get_video_engagement Py.decimal stream1 (Json no_items) watched1
  = (Return None, watched1).
Proof.
  split; [reflexivity|].
  apply (get_video_engagement_no_items Py.decimal stream1 no_items watched1).
  reflexivity.
Defined.

(** C5, as the specification has it, fails: after a call that recorded 200
    views, a reply without items leaves [video_views] at 200, not at 0. *)
Lemma no_items_keeps_the_counts :
  has_items no_items = Some false /\
  gauge_value (snd (get_video_engagement Py.decimal stream1 (Json no_items) watched1))
    video_views (base_series stream1) = Py.float_of_int 200 /\
  ~ (counters (snd (get_video_engagement Py.decimal stream1 (Json no_items) watched1))
     = counters watched1 /\
     forall g, g ∈ [video_views; video_likes; video_comments; video_favorites] ->
       gauge_value (snd (get_video_engagement Py.decimal stream1 (Json no_items)
                           watched1))
         g (base_series stream1) = Some float_zero).
Proof.
  split; [reflexivity|]. split; [by vm_compute|].
  intros [_ Hzero]. specialize (Hzero video_views (list_elem_of_here _ _)).
  vm_compute in Hzero. discriminate.
Qed.

Lemma counters_monotonic_witness :
  exists p',
    exec_all Py.decimal true
      [Construct stream1;
       CheckStreamStatus stream1 offline_reply clock1;
       GetVideoEngagement stream1 Failed;
       Register (channel_id stream2) (video_id stream2) (stream_name stream2)
         (channel_name stream2) (environment stream2);
       GetChannelInfo stream1 channel_reply1 clock1]
      start = Some p' /\
    forall c lbl,
      counter_value (metrics start) c lbl <= counter_value (metrics p') c lbl.
Proof.
  eexists. split; [reflexivity|].
  apply (counters_monotonic Py.decimal true
           [Construct stream1;
            CheckStreamStatus stream1 offline_reply clock1;
            GetVideoEngagement stream1 Failed;
            Register (channel_id stream2) (video_id stream2) (stream_name stream2)
              (channel_name stream2) (environment stream2);
            GetChannelInfo stream1 channel_reply1 clock1]
           start).
  reflexivity.
Defined.

Lemma channel_description_truncated_witness :
  returned (get_channel_info_try Py.decimal true stream1 channel_reply1 clock1)
    registered1 (Some 1000) /\
  exists title d,
    reply_description channel_reply1 = Some (Py.VStr d) /\
    infos (snd (get_channel_info Py.decimal true stream1 channel_reply1 clock1
                  registered1))
      !! (channel_info, [channel_id stream1; channel_name stream1])
    = Some (channel_record title d 1000 clock1) /\
    Py.dict_lookup "description" (channel_record title d 1000 clock1)
    = Some (Py.VStr (String.substring 0 100 d ++ "...")) /\
    (String.length (String.substring 0 100 d ++ "...") <= 103)%nat /\
    ((String.length d <= 100)%nat ->
     (String.substring 0 100 d ++ "...")%string = (d ++ "...")%string).
Proof.
  split; [by vm_compute|].
  apply (channel_description_truncated Py.decimal true stream1 channel_reply1
           clock1 registered1 1000).
  by vm_compute.
Defined.

Example short_description_gets_the_dots :
  Py.dict_lookup "description"
    (default []
       (infos (snd (get_channel_info Py.decimal true stream1 channel_reply1 clock1
                      registered1))
          !! (channel_info, [channel_id stream1; channel_name stream1])))
  = Some (Py.VStr "Daily news...").
Proof. by vm_compute. Qed.

Lemma register_stream_ignores_names_witness :
  register_stream (channel_id stream1) (video_id stream1) (stream_name stream1)
    "TEST_Renamed" "Test"
    (snd (register_stream (channel_id stream1) (video_id stream1)
            (stream_name stream1) (channel_name stream1) (environment stream1)
            new_metrics))
  = (Return tt,
     snd (register_stream (channel_id stream1) (video_id stream1)
            (stream_name stream1) (channel_name stream1) (environment stream1)
            new_metrics)) /\
  gauges (snd (register_stream (channel_id stream1) (video_id stream1)
                 (stream_name stream1) "TEST_Renamed" "Test"
                 (snd (register_stream (channel_id stream1) (video_id stream1)
                         (stream_name stream1) (channel_name stream1)
                         (environment stream1) new_metrics))))
    !! (video_views, [channel_id stream1; stream_name stream1; video_id stream1;
                      "TEST_Renamed"%string]) = None.
Proof.
  destruct (register_stream_ignores_names
              (channel_id stream1) (video_id stream1) (stream_name stream1)
              (channel_name stream1) (environment stream1)
              "TEST_Renamed" "Test" new_metrics)
    as (Hsame & Hgauges & _).
  split; [exact Hsame|].
  apply (Hgauges ltac:(discriminate) video_views).
  reflexivity.
Defined.

(** ** The further properties at work *)

Example stream1_config_read : config_monitor stream1_config = Some stream1.
Proof. reflexivity. Qed.

Lemma check_stream_status_success_witness :
  returned (check_stream_status_try Py.decimal true stream1 live_reply clock1)
    registered1 (true, 42, Py.VStr "Morning show") /\
  gauge_value (snd (check_stream_status Py.decimal true stream1 live_reply clock1
                      registered1))
    stream_status (status_series stream1) = Py.float_of_int 1 /\
  gauge_value (snd (check_stream_status Py.decimal true stream1 live_reply clock1
                      registered1))
    stream_viewers (base_series stream1) = Py.float_of_int 42.
Proof.
  assert (returned (check_stream_status_try Py.decimal true stream1 live_reply clock1)
            registered1 (true, 42, Py.VStr "Morning show")) as Hret.
  { by vm_compute. }
  split; [exact Hret|].
  destruct (check_stream_status_success Py.decimal true stream1 live_reply clock1
              registered1 true 42 (Py.VStr "Morning show") Hret)
    as (_ & Hstatus & Hviewers & _).
  split; [exact Hstatus|exact Hviewers].
Defined.

Lemma check_stream_status_no_items_witness :
  has_items no_items = Some false /\
  fst (check_stream_status Py.decimal true stream1 (Json no_items) clock1 registered1)
  = Return (false, 0, Py.VStr "") /\
  counter_value (snd (check_stream_status Py.decimal true stream1 (Json no_items)
                        clock1 registered1))
    error_count (base_series stream1)
  = counter_value registered1 error_count (base_series stream1) + 1.
Proof.
  split; [reflexivity|].
  destruct (check_stream_status_no_items Py.decimal true stream1 no_items clock1
              registered1 eq_refl) as (Hret & _ & _ & _ & Herr & _).
  split; [exact Hret|exact Herr].
Defined.

Lemma get_video_engagement_failure_witness :
  failed (get_video_engagement_try Py.decimal stream1 Failed) registered1 /\
  fst (get_video_engagement Py.decimal stream1 Failed registered1)
  = Return (Some (0, 0, 0)) /\
  counter_value (snd (get_video_engagement Py.decimal stream1 Failed registered1))
    api_errors (base_series stream1)
  = counter_value registered1 api_errors (base_series stream1) + 1.
Proof.
  split; [reflexivity|].
  destruct (get_video_engagement_failure Py.decimal stream1 Failed registered1
              eq_refl) as (Hret & Hapi & _).
  split; [exact Hret|exact Hapi].
Defined.

Lemma get_video_engagement_success_witness :
  returned (get_video_engagement_try Py.decimal stream1 statistics_reply)
    registered1 (Some (200, 10, 3)) /\
  exists favorites,
    gauge_value watched1 video_views (base_series stream1) = Py.float_of_int 200 /\
    gauge_value watched1 video_favorites (base_series stream1)
    = Py.float_of_int favorites.
Proof.
  assert (returned (get_video_engagement_try Py.decimal stream1 statistics_reply)
            registered1 (Some (200, 10, 3))) as Hret.
  { by vm_compute. }
  split; [exact Hret|].
  destruct (get_video_engagement_success Py.decimal stream1 statistics_reply
              registered1 200 10 3 Hret)
    as (_ & _ & favorites & _ & _ & _ & Hviews & _ & _ & Hfav & _).
  exists favorites. split; [exact Hviews|exact Hfav].
Defined.

Lemma get_video_engagement_unreadable_witness :
  has_items unreadable_statistics = Some true /\
  get_video_engagement Py.decimal stream1 (Json unreadable_statistics) registered1
  = (Return (Some (0, 0, 0)),
     with_counters (bump api_errors (base_series stream1) 1) registered1).
Proof.
  split; [reflexivity|].
  apply (get_video_engagement_unreadable Py.decimal stream1 unreadable_statistics
           registered1); reflexivity.
Defined.

Lemma get_channel_info_outcomes_witness :
  failed (get_channel_info_try Py.decimal true stream1 Failed clock1) registered1 /\
  fst (get_channel_info Py.decimal true stream1 Failed clock1 registered1)
  = Return (Some 0).
Proof.
  split; [reflexivity|].
  destruct (get_channel_info_outcomes Py.decimal true stream1 Failed clock1
              registered1) as [Hfail _].
  destruct (Hfail eq_refl) as [Hret _]. exact Hret.
Defined.

Lemma YouTubeMonitor_init_outcomes_witness :
  (stream_key (channel_id stream2) (video_id stream2) (stream_name stream2)
     ∉ registered_streams watched1) /\
  consistent watched1 /\
  YouTubeMonitor_init true stream2 (Some watched1) true
  = (Return tt, Some (snd (init true stream2 watched1))) /\
  forall g, gauge_value (snd (init true stream2 watched1)) g (monitor_series g stream2)
            = Some float_zero.
Proof.
  assert (stream_key (channel_id stream2) (video_id stream2) (stream_name stream2)
            ∉ registered_streams watched1) as Hnew.
  { apply (bool_decide_eq_false_1 _). by vm_compute. }
  assert (consistent watched1) as Hcons.
  { apply (reachable_consistent Py.decimal true
             {| metrics := watched1; monitors := [stream1] |}).
    exists [Construct stream1; GetVideoEngagement stream1 statistics_reply].
    reflexivity. }
  split; [exact Hnew|split; [exact Hcons|]].
  destruct (YouTubeMonitor_init_outcomes true stream2) as (Hgiven & _ & _).
  destruct (Hgiven watched1 true) as (Hret & _ & _ & Hfresh).
  destruct (Hfresh Hnew Hcons) as [Hgauges _].
  split; [exact Hret|exact Hgauges].
Defined.

Lemma run_monitor_effect_witness :
  config_monitor stream1_config = Some stream1 /\
  run_monitor Py.decimal true stream1_config offline_world 3 new_metrics
  = (Return (3%nat, flat_map scheduled (seq 0 3)),
     perform_all Py.decimal true stream1 offline_world (flat_map scheduled (seq 0 3))
       (snd (init true stream1 new_metrics))) /\
  counter_value
    (snd (run_monitor Py.decimal true stream1_config offline_world 3 new_metrics))
    check_count (base_series stream1)
  = counter_value new_metrics check_count (base_series stream1) + Z.of_nat 3.
Proof.
  split; [reflexivity|].
  destruct (run_monitor_effect Py.decimal true stream1_config offline_world 3
              new_metrics) as [_ Hrun].
  destruct (Hrun stream1 eq_refl) as (_ & Hret & _ & Hcount).
  split; [exact Hret|exact Hcount].
Defined.

Lemma check_count_is_number_of_calls_witness :
  exists p,
    exec_all Py.decimal true
      [Construct stream1;
       CheckStreamStatus stream1 offline_reply clock1;
       GetVideoEngagement stream1 Failed;
       CheckStreamStatus stream1 Failed clock1]
      start = Some p /\
    counter_value (metrics p) check_count (base_series stream1) = 2.
Proof.
  eexists. split; [reflexivity|].
  apply (check_count_is_number_of_calls Py.decimal true
           [Construct stream1;
            CheckStreamStatus stream1 offline_reply clock1;
            GetVideoEngagement stream1 Failed;
            CheckStreamStatus stream1 Failed clock1]
           _ (base_series stream1)).
  reflexivity.
Defined.

Lemma registered_streams_only_grows_witness :
  exists p,
    exec_all Py.decimal true
      [Register (channel_id stream2) (video_id stream2) (stream_name stream2)
         (channel_name stream2) (environment stream2);
       CheckStreamStatus stream1 Failed clock1]
      {| metrics := registered1; monitors := [stream1] |} = Some p /\
    registered_streams registered1 ⊆ registered_streams (metrics p).
Proof.
  eexists. split; [reflexivity|].
  apply (registered_streams_only_grows Py.decimal true
           [Register (channel_id stream2) (video_id stream2) (stream_name stream2)
              (channel_name stream2) (environment stream2);
            CheckStreamStatus stream1 Failed clock1]
           {| metrics := registered1; monitors := [stream1] |}).
  reflexivity.
Defined.

Lemma reachable_invariant_witness :
  reachable Py.decimal true {| metrics := watched1; monitors := [stream1] |} /\
  invariant {| metrics := watched1; monitors := [stream1] |}.
Proof.
  assert (reachable Py.decimal true {| metrics := watched1; monitors := [stream1] |})
    as Hreach.
  { exists [Construct stream1; GetVideoEngagement stream1 statistics_reply].
    reflexivity. }
  split; [exact Hreach|].
  exact (reachable_invariant Py.decimal true _ Hreach).
Defined.

Lemma reachable_status_binary_witness :
  reachable Py.decimal true {| metrics := watched1; monitors := [stream1] |} /\
  status_binary watched1.
Proof.
  assert (reachable Py.decimal true {| metrics := watched1; monitors := [stream1] |})
    as Hreach.
  { exists [Construct stream1; GetVideoEngagement stream1 statistics_reply].
    reflexivity. }
  split; [exact Hreach|].
  exact (reachable_status_binary Py.decimal true _ Hreach).
Defined.

Lemma monitor_loop_cadence_witness :
  counter_value (snd (monitor_loop Py.decimal true stream1 failing_world 11 registered1))
    api_errors (base_series stream1)
  = counter_value registered1 api_errors (base_series stream1) + 16 /\
  counter_value (snd (monitor_loop Py.decimal true stream1 failing_world 11 registered1))
    error_count (base_series stream1)
  = counter_value registered1 error_count (base_series stream1) + 11 /\
  counter_value (snd (monitor_loop Py.decimal true stream1 failing_world 11 registered1))
    check_count (base_series stream1)
  = counter_value registered1 check_count (base_series stream1) + 11.
Proof.
  destruct (monitor_loop_cadence Py.decimal true stream1 failing_world registered1)
    as (_ & _ & Hfailing).
  apply Hfailing; reflexivity.
Defined.
